(** * Mastermind solver: a shallow embedding of [mastermind.py]

    The development models the solving engine of the repository: the
    feedback evaluator [calculate_feedback], the construction of a
    [MastermindGame], [play_turn], [next_guess] and [_minimax_guess].
    Python integers are [Z], tuples of colour names are lists of strings,
    the dictionary [feedback_counts] is a [gmap], [set(guess)] is a [gset],
    and a raised exception is the [Raise] branch of [result]. *)

From Stdlib Require Import ZArith Lia.
From stdpp Require Import base numbers list list_numbers strings gmap fin_sets.

Local Open Scope Z_scope.

(** ** The Python built-ins the program uses *)

Module Py.

(** An exception is identified by the name of its class. *)
Definition exn := string.

Inductive result (A : Type) : Type :=
| Ok (a : A)
| Raise (e : exn).
Arguments Ok {A} a.
Arguments Raise {A} e.

Definition bind {A B} (m : result A) (k : A → result B) : result B :=
  match m with
  | Ok a => k a
  | Raise e => Raise e
  end.

Definition ValueError : exn := "ValueError".

(** [sum(iterable)]: left-to-right accumulation starting from 0. *)
Definition sum (l : list Z) : Z := foldl Z.add 0 l.

(** [len(seq)] *)
Definition len {A} (l : list A) : Z := Z.of_nat (length l).

(** [int(b)] for a boolean [b], as used when booleans are summed. *)
Definition int_of_bool (b : bool) : Z := if b then 1 else 0.

(** [seq.count(x)] *)
Fixpoint count `{EqDecision A} (x : A) (l : list A) : Z :=
  match l with
  | [] => 0
  | y :: l' => (if decide (y = x) then 1 else 0) + count x l'
  end.

(** [max(iterable)]: raises [ValueError] on an empty iterable. *)
Definition max (l : list Z) : result Z :=
  match l with
  | [] => Raise ValueError
  | x :: l' => Ok (foldl Z.max x l')
  end.

(** [set(seq)], iterated in the order [elements] gives. *)
Definition set `{Countable A} (l : list A) : gset A := list_to_set l.

(** [float('inf')] next to the integers it is compared with. *)
Inductive num : Type :=
| Int (z : Z)
| PosInf.

(** [n < bound] for an integer [n]. *)
Definition lt_num (n : Z) (bound : num) : bool :=
  match bound with
  | Int m => bool_decide (n < m)
  | PosInf => true
  end.

(** [itertools.product(pool, repeat=n)] for [n >= 0]: the rightmost
    position advances fastest. *)
Fixpoint product_nat {A} (pool : list A) (n : nat) : list (list A) :=
  match n with
  | O => [[]]
  | S n' => x ← pool; rest ← product_nat pool n'; [x :: rest]
  end.

(** [list(itertools.product(pool, repeat=repeat))] where the platform sets
    no limit to the size of an integer argument or to memory; [product_on]
    below has these limits. *)
Definition product {A} (pool : list A) (repeat : Z) : result (list (list A)) :=
  if decide (repeat < 0) then Raise ValueError
  else Ok (product_nat pool (Z.to_nat repeat)).

(** Every way of taking one position out of a list: the element taken and
    the others, in their order. *)
Fixpoint picks {A} (l : list A) : list (A * list A) :=
  match l with
  | [] => []
  | x :: l' => (x, l') :: ((λ p, (p.1, x :: p.2)) <$> picks l')
  end.

(** [itertools.permutations(pool, r)] for [r >= 0]: the arrangements of
    [r] positions of the pool, in lexicographic order of the positions;
    none when [r] exceeds the size of the pool. *)
Fixpoint permutations_nat {A} (pool : list A) (r : nat) : list (list A) :=
  match r with
  | O => [[]]
  | S r' => p ← picks pool; rest ← permutations_nat p.2 r'; [p.1 :: rest]
  end.

(** [list(itertools.permutations(pool, r))] where the platform sets no
    limit to the size of an integer argument or to memory;
    [permutations_on] below has these limits. *)
Definition permutations {A} (pool : list A) (r : Z) : result (list (list A)) :=
  if decide (r < 0) then Raise ValueError
  else Ok (permutations_nat pool (Z.to_nat r)).

(** [random.sample(population, k)]: [ValueError] unless
    [0 <= k <= len(population)]; otherwise one of the arrangements of [k]
    positions of the population, each as likely as any other. The model
    returns the list of these equally likely outcomes. *)
Definition random_sample {A} (population : list A) (k : Z)
  : result (list (list A)) :=
  if decide (0 ≤ k ≤ len population)
  then Ok (permutations_nat population (Z.to_nat k))
  else Raise ValueError.

(** *** The limits of the platform *)

Definition OverflowError : exn := "OverflowError".
Definition MemoryError : exn := "MemoryError".

(** The platform the interpreter runs on: the largest [Py_ssize_t]
    ([sys.maxsize]), the size of a [Py_ssize_t] in bytes, and the requests
    for memory, counted in items, that it grants. *)
Record machine : Type := mkMachine {
  ssize_t_max : Z;
  sizeof_ssize_t : Z;
  allocates : Z → bool;
}.

(** The conversion of an integer argument to [Py_ssize_t]. *)
Definition as_ssize_t (m : machine) (z : Z) : result Z :=
  if decide (- ssize_t_max m - 1 ≤ z ≤ ssize_t_max m) then Ok z
  else Raise OverflowError.

(** [PyMem_New(Py_ssize_t, k)]: refused when [k] exceeds
    [PY_SSIZE_T_MAX / sizeof(Py_ssize_t)], and otherwise granted when the
    platform has the memory. *)
Definition mem_new (m : machine) (k : Z) : bool :=
  bool_decide (k ≤ ssize_t_max m `div` sizeof_ssize_t m) && allocates m k.

(** [list(iterable)] for an iterable that yields [items]. *)
Definition list_of {A} (m : machine) (items : list A) : result (list A) :=
  if allocates m (len items) then Ok items else Raise MemoryError.

(** [list(itertools.product(pool, repeat=repeat))] on a platform: the
    argument is converted, a negative one is refused, then one too large
    for the size of the working arrays to be computed, then the arrays of
    [repeat] items are allocated and the list is filled. *)
Definition product_on {A} (m : machine) (pool : list A) (repeat : Z)
  : result (list (list A)) :=
  bind (as_ssize_t m repeat) (λ r,
    if decide (r < 0) then Raise ValueError
    else if decide (r ≠ 0 ∧ (ssize_t_max m `div` sizeof_ssize_t m) `div` r < 1)
    then Raise OverflowError
    else if mem_new m r then list_of m (product_nat pool (Z.to_nat r))
    else Raise MemoryError).

(** [list(itertools.permutations(pool, r))] on a platform: the argument is
    converted, a negative one is refused, then the arrays of [len(pool)]
    and of [r] items are allocated and the list is filled. *)
Definition permutations_on {A} (m : machine) (pool : list A) (r : Z)
  : result (list (list A)) :=
  bind (as_ssize_t m r) (λ r',
    if decide (r' < 0) then Raise ValueError
    else if mem_new m (len pool) && mem_new m r'
    then list_of m (permutations_nat pool (Z.to_nat r'))
    else Raise MemoryError).

End Py.

Notation "x <- m ;; k" := (Py.bind m (λ x, k))
  (at level 100, m at next level, right associativity).

(** ** The feedback evaluator *)

Section feedback.
Context `{Countable A}.

Definition correct_position_of (guess code : list A) : Z :=
  Py.sum ((λ gc, Py.int_of_bool (bool_decide (gc.1 = gc.2))) <$> zip guess code).

Definition common_colors (guess code : list A) : Z :=
  Py.sum ((λ color, Z.min (Py.count color guess) (Py.count color code))
            <$> elements (Py.set guess)).

Definition calculate_feedback (guess code : list A) : Z * Z :=
  let correct_position := correct_position_of guess code in
  let correct_color := common_colors guess code - correct_position in
  (correct_position, correct_color).

(** The exact matches that carry the symbol [s]; their sum over the
    distinct symbols of a guess is [correct_position_of]. *)
Definition exact_of (s : A) (guess code : list A) : Z :=
  Py.sum ((λ gc, Py.int_of_bool (bool_decide (gc.1 = gc.2 ∧ gc.1 = s)))
            <$> zip guess code).

(** *** The evaluator as the specification words it *)

(** The number of index positions below [length guess] at which the two
    codes hold equal symbols. *)
Definition spec_exact (guess code : list A) : Z :=
  Py.len (filter (λ i, guess !! i = code !! i) (seq 0 (length guess))).

(** The number of occurrences of a symbol in a code. *)
Definition spec_count (s : A) (l : list A) : Z :=
  Py.len (filter (λ x, x = s) l).

(** The sum, over each distinct symbol of [guess], of the smaller of its
    two counts. *)
Definition spec_overlap (guess code : list A) : Z :=
  foldr (λ s acc, Z.min (spec_count s guess) (spec_count s code) + acc) 0
        (remove_dups guess).

Definition spec_score (guess code : list A) : Z * Z :=
  (spec_exact guess code, spec_overlap guess code - spec_exact guess code).

End feedback.

(** ** The game *)

Definition COLORS : list string :=
  ["Red"; "Green"; "Yellow"; "Blue"; "Purple"; "Orange"]%string.

Record MastermindGame : Type := mkGame {
  allow_duplicates : bool;
  code_length : Z;
  all_codes : list (list string);
  secret_code : list string;
  possible_codes : list (list string);
  guesses : list (list string);
  feedbacks : list (Z * Z);
}.

(** The object [__init__] leaves behind once the secret is drawn:
    [possible_codes] is a copy of [all_codes], the history is empty. *)
Definition fresh_game (allow_duplicates : bool) (code_length : Z)
    (all_codes : list (list string)) (secret_code : list string)
  : MastermindGame :=
  {| allow_duplicates := allow_duplicates;
     code_length := code_length;
     all_codes := all_codes;
     secret_code := secret_code;
     possible_codes := all_codes;
     guesses := [];
     feedbacks := [] |}.

(** [MastermindGame.__init__]: the result is either the exception raised
    or the equally likely games, one for each secret [random.sample] can
    draw. The platform sets no limit here; [MastermindGame_init_on] below
    has the limits, and builds the same games when it builds any. *)
Definition MastermindGame_init (allow_duplicates : bool) (code_length : Z)
  : Py.result (list MastermindGame) :=
  all_codes <- (if allow_duplicates
                then Py.product COLORS code_length
                else Py.permutations COLORS code_length) ;;
  secrets <- Py.random_sample COLORS code_length ;;
  Py.Ok (fresh_game allow_duplicates code_length all_codes <$> secrets).

(** [MastermindGame.__init__] on a platform: as [MastermindGame_init],
    with the limits the platform sets to [itertools]. The copy
    [all_codes[:]] asks for as much memory as the list it copies, which
    was granted. *)
Definition MastermindGame_init_on (m : Py.machine) (allow_duplicates : bool)
    (code_length : Z) : Py.result (list MastermindGame) :=
  all_codes <- (if allow_duplicates
                then Py.product_on m COLORS code_length
                else Py.permutations_on m COLORS code_length) ;;
  secrets <- Py.random_sample COLORS code_length ;;
  Py.Ok (fresh_game allow_duplicates code_length all_codes <$> secrets).

(** The code space [__init__] computes on a platform. *)
Definition code_space_on (m : Py.machine) (dups : bool) (n : Z)
  : Py.result (list (list string)) :=
  if dups then Py.product_on m COLORS n else Py.permutations_on m COLORS n.

(** The candidate filter of [play_turn] (the list comprehension). *)
Definition filter_codes (codes : list (list string)) (guess : list string)
    (feedback : Z * Z) : list (list string) :=
  filter (λ code, calculate_feedback guess code = feedback) codes.

(** [MastermindGame.play_turn]: the returned boolean and the object after
    the call. *)
Definition play_turn (self : MastermindGame) (guess : list string)
  : bool * MastermindGame :=
  let feedback := calculate_feedback guess (secret_code self) in
  let guesses' := guesses self ++ [guess] in
  let feedbacks' := feedbacks self ++ [feedback] in
  if decide (feedback = (code_length self, 0)) then
    (true,
     {| allow_duplicates := allow_duplicates self;
        code_length := code_length self;
        all_codes := all_codes self;
        secret_code := secret_code self;
        possible_codes := possible_codes self;
        guesses := guesses';
        feedbacks := feedbacks' |})
  else
    (false,
     {| allow_duplicates := allow_duplicates self;
        code_length := code_length self;
        all_codes := all_codes self;
        secret_code := secret_code self;
        possible_codes := filter_codes (possible_codes self) guess feedback;
        guesses := guesses';
        feedbacks := feedbacks' |}).

(** The dictionary [feedback_counts] after the inner loop of
    [_minimax_guess]. *)
Definition feedback_counts (guess : list string)
    (codes : list (list string)) : gmap (Z * Z) Z :=
  foldl (λ counts code,
           let feedback := calculate_feedback guess code in
           <[feedback := default 0 (counts !! feedback) + 1]> counts)
        ∅ codes.

(** [max(feedback_counts.values())] *)
Definition max_eliminations (guess : list string)
    (codes : list (list string)) : Py.result Z :=
  Py.max ((map_to_list (feedback_counts guess codes)).*2).

(** The outer loop of [_minimax_guess] from a given point on, with the
    current [best_guess] ([None] in Python is [None] here) and
    [min_max_eliminations]. The progress lines it prints are not
    modelled. *)
Fixpoint minimax_loop (universe : list (list string))
    (codes : list (list string)) (best_guess : option (list string))
    (min_max_eliminations : Py.num) : Py.result (option (list string)) :=
  match universe with
  | [] => Py.Ok best_guess
  | guess :: universe' =>
      m <- max_eliminations guess codes ;;
      if Py.lt_num m min_max_eliminations
      then minimax_loop universe' codes (Some guess) (Py.Int m)
      else minimax_loop universe' codes best_guess min_max_eliminations
  end.

Definition _minimax_guess (self : MastermindGame)
  : Py.result (option (list string)) :=
  minimax_loop (all_codes self) (possible_codes self) None Py.PosInf.

(** [MastermindGame.next_guess]: when [len(possible_codes) == 1] the
    result is [possible_codes[0]]. *)
Definition next_guess (self : MastermindGame)
  : Py.result (option (list string)) :=
  match possible_codes self with
  | [code] => Py.Ok (Some code)
  | _ => _minimax_guess self
  end.

(** Turns played one after the other. *)
Definition play_turns (self : MastermindGame) (turns : list (list string))
  : MastermindGame :=
  foldl (λ game guess, (play_turn game guess).2) self turns.

(** *** The selector as the specification words it *)

(** The size of the part of [codes] whose score against [guess] is
    [feedback]. *)
Definition part_size (guess : list string) (codes : list (list string))
    (feedback : Z * Z) : Z :=
  Py.len (filter_codes codes guess feedback).

(** The largest part size of the partition of [codes] by their score
    against [guess]. *)
Definition worst (guess : list string) (codes : list (list string)) : Z :=
  foldr Z.max 0
    ((λ code, part_size guess codes (calculate_feedback guess code)) <$> codes).

(** [guess] is the first code of [universe], in its order, whose largest
    part is as small as any. *)
Definition is_first_minimax (universe codes : list (list string))
    (guess : list string) : Prop :=
  ∃ i : nat,
    universe !! i = Some guess
    ∧ (∀ g, g ∈ universe → worst guess codes ≤ worst g codes)
    ∧ (∀ (j : nat) g, (j < i)%nat → universe !! j = Some g →
                      worst guess codes < worst g codes).

(** *** Guess validity as the specification words it *)

Definition spec_valid_guess (self : MastermindGame) (guess : list string)
  : Prop :=
  Py.len guess = code_length self
  ∧ (∀ s, s ∈ guess → s ∈ COLORS)
  ∧ (allow_duplicates self = false → NoDup guess).

(** ** The solving loop of [run_game] *)

Definition CODE_LENGTH : Z := 4.

Definition TypeError : Py.exn := "TypeError".

(** The fixed first guess of [run_game]: [COLORS[0]] on the first half of
    the positions, [COLORS[1]] on the others. *)
Definition initial_guess : list string :=
  let half_length := CODE_LENGTH `div` 2 in
  (λ i, if decide (i < half_length) then COLORS !!! 0%nat else COLORS !!! 1%nat)
    <$> seqZ 0 CODE_LENGTH.

(** The loop [while not solved] of [run_game] on a game, for at most
    [fuel] turns: the guess is [initial_guess] while no guess has been
    made and [next_guess()] afterwards, and [play_turn] tells whether to
    stop. The result is the game when the loop ends, [None] when [fuel]
    turns did not end it. Drawing and the delay between turns are not
    modelled. A guess [None] makes [calculate_feedback] raise [TypeError]
    (it is not iterable). *)
Fixpoint run_game_loop (fuel : nat) (game : MastermindGame)
  : Py.result (option MastermindGame) :=
  match fuel with
  | O => Py.Ok None
  | S fuel' =>
      guess <- (match guesses game with
                | [] => Py.Ok (Some initial_guess)
                | _ => next_guess game
                end) ;;
      match guess with
      | None => Py.Raise TypeError
      | Some guess =>
          let (solved, game') := play_turn game guess in
          if solved then Py.Ok (Some game') else run_game_loop fuel' game'
      end
  end.

(** What the constructor establishes and every turn keeps: the secret is
    a candidate, the candidates are distinct codes of the universe, and
    every code of the universe has [code_length] symbols. *)
Definition well_formed (self : MastermindGame) : Prop :=
  secret_code self ∈ possible_codes self
  ∧ NoDup (possible_codes self)
  ∧ (∀ code, code ∈ possible_codes self → code ∈ all_codes self)
  ∧ (∀ code, code ∈ all_codes self → Py.len code = code_length self).

(** ** Sample games *)

Module Sample.

Definition secret : list string := ["Red"; "Green"; "Yellow"; "Blue"]%string.

(** The opening guess of [run_game] for [CODE_LENGTH = 4]. *)
Definition opening : list string := ["Red"; "Red"; "Green"; "Green"]%string.

(** One of the games [MastermindGame(True, 4)] can build. *)
Definition game : MastermindGame :=
  fresh_game true 4 (Py.product_nat COLORS 4) secret.

(** That game after the opening guess. *)
Definition after_opening : MastermindGame := (play_turn game opening).2.

(** A game with a single candidate left. *)
Definition last_candidate : MastermindGame :=
  {| allow_duplicates := true;
     code_length := 4;
     all_codes := Py.product_nat COLORS 4;
     secret_code := secret;
     possible_codes := [secret];
     guesses := [opening];
     feedbacks := [(1, 1)] |}.

(** A 64-bit build with memory for sequences of up to [2 ^ 24] items. *)
Definition machine : Py.machine :=
  {| Py.ssize_t_max := 2 ^ 63 - 1;
     Py.sizeof_ssize_t := 8;
     Py.allocates := λ k, bool_decide (k ≤ 2 ^ 24) |}.

(** Guesses the specification calls invalid. *)
Definition short_guess : list string := ["Red"]%string.
Definition foreign_guess : list string :=
  ["Pink"; "Red"; "Green"; "Blue"]%string.

End Sample.

(** * Properties *)

(** ** Sums, counts and maxima *)

Section sums.

Lemma foldl_add_acc (a : Z) (l : list Z) :
  foldl Z.add a l = a + foldl Z.add 0 l.
Proof.
  revert a. induction l as [|x l IH]; intros a; simpl; [lia|].
  rewrite (IH (a + x)), (IH (0 + x)). lia.
Qed.

Lemma sum_nil : Py.sum [] = 0.
Proof. reflexivity. Qed.

Lemma sum_cons (x : Z) (l : list Z) : Py.sum (x :: l) = x + Py.sum l.
Proof. unfold Py.sum. simpl. rewrite foldl_add_acc. lia. Qed.

Lemma sum_app (l k : list Z) : Py.sum (l ++ k) = Py.sum l + Py.sum k.
Proof.
  induction l as [|x l IH]; simpl; [rewrite sum_nil; lia|].
  rewrite !sum_cons, IH. lia.
Qed.

Lemma sum_foldr (l : list Z) : Py.sum l = foldr Z.add 0 l.
Proof. induction l as [|x l IH]; [done|]. rewrite sum_cons, IH. done. Qed.

Lemma sum_perm (l k : list Z) : l ≡ₚ k → Py.sum l = Py.sum k.
Proof.
  induction 1 as [|x l k _ IH|x y l|l k m _ IH1 _ IH2];
    rewrite ?sum_cons; lia.
Qed.

Context {A : Type}.
Implicit Types (f g : A → Z) (l : list A).

Lemma sum_fmap_cons f x l : Py.sum (f <$> x :: l) = f x + Py.sum (f <$> l).
Proof. rewrite fmap_cons. apply sum_cons. Qed.

Lemma sum_fmap_ext f g l :
  (∀ x, x ∈ l → f x = g x) → Py.sum (f <$> l) = Py.sum (g <$> l).
Proof.
  induction l as [|x l IH]; intros Hfg; [done|].
  rewrite !sum_fmap_cons, IH, (Hfg x); [done|left|].
  intros y Hy. apply Hfg. by right.
Qed.

Lemma sum_fmap_le f g l :
  (∀ x, x ∈ l → f x ≤ g x) → Py.sum (f <$> l) ≤ Py.sum (g <$> l).
Proof.
  induction l as [|x l IH]; intros Hfg; [done|].
  rewrite !sum_fmap_cons.
  assert (f x ≤ g x) by (apply Hfg; left).
  assert (Py.sum (f <$> l) ≤ Py.sum (g <$> l)); [|lia].
  apply IH. intros y Hy. apply Hfg. by right.
Qed.

Lemma sum_fmap_nonneg f l : (∀ x, x ∈ l → 0 ≤ f x) → 0 ≤ Py.sum (f <$> l).
Proof.
  induction l as [|x l IH]; intros Hf; [done|].
  rewrite sum_fmap_cons.
  assert (0 ≤ f x) by (apply Hf; left).
  assert (0 ≤ Py.sum (f <$> l)); [|lia].
  apply IH. intros y Hy. apply Hf. by right.
Qed.

Lemma sum_fmap_add f g l :
  Py.sum ((λ x, f x + g x) <$> l) = Py.sum (f <$> l) + Py.sum (g <$> l).
Proof.
  induction l as [|x l IH]; [done|]. rewrite !sum_fmap_cons, IH. lia.
Qed.

Lemma sum_fmap_zero f l : (∀ x, x ∈ l → f x = 0) → Py.sum (f <$> l) = 0.
Proof.
  induction l as [|x l IH]; intros Hf; [done|].
  rewrite sum_fmap_cons, IH, (Hf x); [done|left|].
  intros y Hy. apply Hf. by right.
Qed.

Lemma sum_fmap_le_length f l :
  (∀ x, x ∈ l → f x ≤ 1) → Py.sum (f <$> l) ≤ Py.len l.
Proof.
  unfold Py.len. induction l as [|x l IH]; intros Hf; [done|].
  rewrite sum_fmap_cons. simpl length.
  assert (f x ≤ 1) by (apply Hf; left).
  assert (Py.sum (f <$> l) ≤ Z.of_nat (length l)); [|lia].
  apply IH. intros y Hy. apply Hf. by right.
Qed.

(** Only the arguments where [f] is not zero matter to a sum. *)
Lemma sum_filter_nonzero f l :
  Py.sum (f <$> l) = Py.sum (f <$> filter (λ x, f x ≠ 0) l).
Proof.
  induction l as [|x l IH]; [done|].
  rewrite sum_fmap_cons, filter_cons.
  destruct (decide (f x ≠ 0)) as [Hx|Hx].
  - by rewrite sum_fmap_cons, IH.
  - apply dec_stable in Hx. rewrite Hx, IH. lia.
Qed.

Lemma sum_support f l k :
  NoDup l → NoDup k →
  (∀ x, f x ≠ 0 → (x ∈ l ↔ x ∈ k)) →
  Py.sum (f <$> l) = Py.sum (f <$> k).
Proof.
  intros Hl Hk Hlk.
  rewrite (sum_filter_nonzero f l), (sum_filter_nonzero f k).
  apply sum_perm, fmap_Permutation, NoDup_Permutation.
  - by apply NoDup_filter.
  - by apply NoDup_filter.
  - intros x. rewrite !list_elem_of_filter.
    split; intros [Hx ?]; (split; [done|]); by apply (Hlk x Hx).
Qed.

End sums.

(** ** The feedback evaluator *)

Section feedback_facts.
Context `{Countable A}.
Implicit Types (a b guess code : list A) (s : A).

Lemma count_nonneg s a : 0 ≤ Py.count s a.
Proof. induction a as [|y a IH]; simpl; [done|]. case_decide; lia. Qed.

Lemma count_pos s a : 0 < Py.count s a ↔ s ∈ a.
Proof.
  induction a as [|y a IH]; simpl.
  - split; [lia|]. by intros ?%not_elem_of_nil.
  - rewrite elem_of_cons. pose proof (count_nonneg s a).
    case_decide as Hys.
    + split; [by left|lia].
    + split.
      * intros Hpos. right. apply IH. lia.
      * intros [->|Hs%IH]; [done|lia].
Qed.

Lemma count_zero s a : s ∉ a → Py.count s a = 0.
Proof.
  intros Hs. pose proof (count_nonneg s a).
  destruct (decide (Py.count s a = 0)); [done|].
  exfalso. apply Hs, count_pos. lia.
Qed.

Lemma count_spec s a : Py.count s a = spec_count s a.
Proof.
  unfold spec_count, Py.len. induction a as [|y a IH]; [done|].
  simpl Py.count. rewrite filter_cons, IH.
  destruct (decide (y = s)); simpl length; lia.
Qed.

(** A sum of indicators of one point over a duplicate-free list. *)
Lemma sum_indicator (y : A) (l : list A) :
  NoDup l → y ∈ l →
  Py.sum ((λ s, if decide (y = s) then 1 else 0) <$> l) = 1.
Proof.
  induction 1 as [|x l Hx Hl IH]; [by intros ?%not_elem_of_nil|].
  rewrite elem_of_cons, sum_fmap_cons. intros [->|Hy].
  - rewrite decide_True by done. rewrite sum_fmap_zero; [done|].
    intros z Hz. rewrite decide_False; [done|]. by intros ->.
  - rewrite decide_False by (by intros ->). by rewrite IH.
Qed.

(** The counts of the symbols of a code add up to its length. *)
Lemma sum_count_len a (l : list A) :
  NoDup l → (∀ x, x ∈ a → x ∈ l) →
  Py.sum ((λ s, Py.count s a) <$> l) = Py.len a.
Proof.
  intros Hl. unfold Py.len.
  induction a as [|y a IH]; intros Ha; simpl Py.count.
  - by apply sum_fmap_zero.
  - rewrite sum_fmap_add, IH, sum_indicator; simpl length; [lia|done| |].
    + apply Ha. left.
    + intros x Hx. apply Ha. by right.
Qed.

Lemma elements_set_NoDup a : NoDup (elements (Py.set a)).
Proof. apply NoDup_elements. Qed.

Lemma elem_of_elements_set s a : s ∈ elements (Py.set a) ↔ s ∈ a.
Proof. unfold Py.set. by rewrite elem_of_elements, elem_of_list_to_set. Qed.

(** *** Exact matches *)

Lemma correct_position_nil_r a : correct_position_of a [] = 0.
Proof. unfold correct_position_of. by destruct a. Qed.

Lemma correct_position_cons x y a b :
  correct_position_of (x :: a) (y :: b)
  = Py.int_of_bool (bool_decide (x = y)) + correct_position_of a b.
Proof. unfold correct_position_of. simpl zip. by rewrite sum_fmap_cons. Qed.

Lemma exact_of_nil_r s a : exact_of s a [] = 0.
Proof. unfold exact_of. by destruct a. Qed.

Lemma exact_of_cons s x y a b :
  exact_of s (x :: a) (y :: b)
  = Py.int_of_bool (bool_decide (x = y ∧ x = s)) + exact_of s a b.
Proof. unfold exact_of. simpl zip. by rewrite sum_fmap_cons. Qed.

Lemma correct_position_sym a b :
  correct_position_of a b = correct_position_of b a.
Proof.
  revert b. induction a as [|x a IH]; intros [|y b]; [done..|].
  rewrite !correct_position_cons, IH. f_equal.
  unfold Py.int_of_bool. by repeat case_bool_decide.
Qed.

Lemma correct_position_nonneg a b : 0 ≤ correct_position_of a b.
Proof.
  apply sum_fmap_nonneg. intros gc _.
  unfold Py.int_of_bool. by case_bool_decide.
Qed.

Lemma correct_position_le_len a b : correct_position_of a b ≤ Py.len a.
Proof.
  revert b. unfold Py.len.
  induction a as [|x a IH]; intros b; [done|].
  destruct b as [|y b]; simpl length.
  - rewrite correct_position_nil_r. lia.
  - rewrite correct_position_cons. specialize (IH b).
    unfold Py.int_of_bool. case_bool_decide; lia.
Qed.

Lemma exact_of_le_count_l s a b : exact_of s a b ≤ Py.count s a.
Proof.
  revert b. induction a as [|x a IH]; intros b; [done|].
  destruct b as [|y b].
  - rewrite exact_of_nil_r. apply count_nonneg.
  - rewrite exact_of_cons. simpl Py.count. specialize (IH b).
    unfold Py.int_of_bool.
  case_bool_decide as Hm; case_decide; try lia. destruct Hm; congruence.
Qed.

Lemma exact_of_le_count_r s a b : exact_of s a b ≤ Py.count s b.
Proof.
  revert b. induction a as [|x a IH]; intros b.
  { apply count_nonneg. }
  destruct b as [|y b]; [done|].
  rewrite exact_of_cons. simpl Py.count. specialize (IH b).
  unfold Py.int_of_bool.
  case_bool_decide as Hm; case_decide; try lia. destruct Hm; congruence.
Qed.

(** The exact matches, split by the symbol they carry. *)
Lemma correct_position_by_symbol a b (l : list A) :
  NoDup l → (∀ x, x ∈ a → x ∈ l) →
  correct_position_of a b = Py.sum ((λ s, exact_of s a b) <$> l).
Proof.
  intros Hl. revert b. induction a as [|x a IH]; intros b Ha.
  - symmetry. by apply sum_fmap_zero.
  - destruct b as [|y b].
    + rewrite correct_position_nil_r. symmetry. apply sum_fmap_zero.
      intros s _. apply exact_of_nil_r.
    + rewrite correct_position_cons.
      rewrite (sum_fmap_ext _
        (λ s, Py.int_of_bool (bool_decide (x = y ∧ x = s)) + exact_of s a b))
        by (intros s _; apply exact_of_cons).
      rewrite sum_fmap_add, <-IH by (intros z Hz; apply Ha; by right).
      f_equal. destruct (decide (x = y)) as [->|Hxy].
      * rewrite bool_decide_eq_true_2 by done. simpl.
        rewrite <-(sum_indicator y l Hl) by (apply Ha; left).
        apply sum_fmap_ext. intros s _.
        unfold Py.int_of_bool.
        case_bool_decide as Hm; case_decide as Hs; [done| |by destruct Hm|done].
        by destruct Hm.
      * rewrite bool_decide_eq_false_2 by done. simpl.
        symmetry. apply sum_fmap_zero. intros s _.
        rewrite bool_decide_eq_false_2; [done|]. by intros [? _].
Qed.

(** *** Colours in common *)

Lemma common_colors_sym a b : common_colors a b = common_colors b a.
Proof.
  unfold common_colors.
  rewrite (sum_fmap_ext
    (λ color, Z.min (Py.count color b) (Py.count color a))
    (λ color, Z.min (Py.count color a) (Py.count color b)))
    by (intros; lia).
  apply sum_support; [apply elements_set_NoDup..|].
  intros s Hs. rewrite !elem_of_elements_set.
  pose proof (count_nonneg s a). pose proof (count_nonneg s b).
  split; intros _; apply count_pos; lia.
Qed.

Lemma common_colors_le_len a b : common_colors a b ≤ Py.len a.
Proof.
  rewrite <-(sum_count_len a (elements (Py.set a))).
  - apply sum_fmap_le. intros; lia.
  - apply elements_set_NoDup.
  - intros x. by rewrite elem_of_elements_set.
Qed.

Lemma correct_position_le_common a b :
  correct_position_of a b ≤ common_colors a b.
Proof.
  rewrite (correct_position_by_symbol a b (elements (Py.set a))).
  - apply sum_fmap_le. intros s _.
    pose proof (exact_of_le_count_l s a b).
    pose proof (exact_of_le_count_r s a b). lia.
  - apply elements_set_NoDup.
  - intros x. by rewrite elem_of_elements_set.
Qed.

(** *** The evaluator meets its specification *)

Lemma length_filter_fmap {B C} (f : B → C) (P : C → Prop)
    `{!∀ x, Decision (P x)} (l : list B) :
  length (filter P (f <$> l)) = length (filter (λ x, P (f x)) l).
Proof.
  induction l as [|x l IH]; [done|].
  rewrite fmap_cons, !filter_cons.
  destruct (decide (P (f x))); simpl; by rewrite IH.
Qed.

Lemma filter_none {B} (P : B → Prop) `{!∀ x, Decision (P x)} (l : list B) :
  (∀ x, x ∈ l → ¬ P x) → filter P l = [].
Proof.
  induction l as [|x l IH]; intros HP; [done|].
  rewrite filter_cons_False by (apply HP; left).
  apply IH. intros y Hy. apply HP. by right.
Qed.

Lemma spec_exact_cons x y a b :
  spec_exact (x :: a) (y :: b)
  = Py.int_of_bool (bool_decide (x = y)) + spec_exact a b.
Proof.
  unfold spec_exact, Py.len. simpl length. simpl seq.
  rewrite <-fmap_S_seq, filter_cons. unfold Py.int_of_bool.
  destruct (decide ((x :: a) !! 0%nat = (y :: b) !! 0%nat)) as [Hxy|Hxy];
    simpl in Hxy; case_bool_decide; simplify_eq; simpl length;
    rewrite length_filter_fmap; simpl; lia.
Qed.

Lemma spec_exact_nil_r a : spec_exact a [] = 0.
Proof.
  unfold spec_exact, Py.len. rewrite filter_none; [done|].
  intros i [_ Hi]%elem_of_seq.
  destruct (lookup_lt_is_Some_2 a i) as [x ->]; [lia|done].
Qed.

Lemma correct_position_spec a b : correct_position_of a b = spec_exact a b.
Proof.
  revert b. induction a as [|x a IH]; intros b; [done|].
  destruct b as [|y b].
  - by rewrite correct_position_nil_r, spec_exact_nil_r.
  - by rewrite correct_position_cons, spec_exact_cons, IH.
Qed.

Lemma common_colors_spec a b : common_colors a b = spec_overlap a b.
Proof.
  unfold common_colors, spec_overlap.
  rewrite (sum_perm _
    ((λ color, Z.min (Py.count color a) (Py.count color b))
       <$> remove_dups a)).
  - induction (remove_dups a) as [|s l IH]; [done|].
    rewrite sum_fmap_cons, IH, !count_spec. done.
  - apply fmap_Permutation, NoDup_Permutation.
    + apply elements_set_NoDup.
    + apply NoDup_remove_dups.
    + intros s. by rewrite elem_of_elements_set, elem_of_remove_dups.
Qed.

(** A code scored against itself: every position matches. *)
Lemma calculate_feedback_self a : calculate_feedback a a = (Py.len a, 0).
Proof.
  assert (Hpos : correct_position_of a a = Py.len a).
  { unfold Py.len. induction a as [|x a IH]; [done|].
    rewrite correct_position_cons, IH, bool_decide_eq_true_2 by done.
    simpl length. simpl Py.int_of_bool. lia. }
  unfold calculate_feedback. rewrite Hpos. f_equal.
  pose proof (correct_position_le_common a a).
  pose proof (common_colors_le_len a a). lia.
Qed.

End feedback_facts.

(** The pair of codes used in the comments of [calculate_feedback]: two
    exact matches, and no further colour in common. *)
Example feedback_of_commented_pair :
  calculate_feedback ["Red"; "Green"; "Green"; "Blue"]%string
                     ["Red"; "Red"; "Green"; "Yellow"]%string = (2, 0).
Proof. by vm_compute. Qed.

(** ** Code spaces: [itertools.product], [itertools.permutations] *)

Example product_order :
  Py.product_nat [0; 1] 2 = [[0; 0]; [0; 1]; [1; 0]; [1; 1]].
Proof. reflexivity. Qed.

Example permutations_order :
  Py.permutations_nat [0; 1; 2] 2
  = [[0; 1]; [0; 2]; [1; 0]; [1; 2]; [2; 0]; [2; 1]].
Proof. reflexivity. Qed.

Example code_space_sizes :
  length (Py.product_nat COLORS 4) = 1296%nat
  ∧ length (Py.permutations_nat COLORS 4) = 360%nat.
Proof. by vm_compute. Qed.

Section code_spaces.
Context {A : Type}.
Implicit Types (pool rest l : list A) (x : A).

Lemma elem_of_product_nat pool n l :
  l ∈ Py.product_nat pool n ↔ length l = n ∧ ∀ x, x ∈ l → x ∈ pool.
Proof.
  revert l. induction n as [|n IH]; intros l; simpl.
  - rewrite list_elem_of_singleton. split.
    + intros ->. split; [done|]. by intros x ?%not_elem_of_nil.
    + intros [Hl _]. by apply nil_length_inv.
  - rewrite list_elem_of_bind. split.
    + intros (x & (rest & Hl & Hrest)%list_elem_of_bind & Hx).
      apply list_elem_of_singleton in Hl as ->.
      apply IH in Hrest as [<- Hrest]. split; [done|].
      intros y [->|Hy]%elem_of_cons; auto.
    + intros [Hlen Hl]. destruct l as [|x l]; [done|].
      exists x. split; [|apply Hl; left].
      apply list_elem_of_bind. exists l. split; [by left|].
      apply IH. split; [by injection Hlen|].
      intros y Hy. apply Hl. by right.
Qed.

Lemma elem_of_picks pool x rest :
  (x, rest) ∈ Py.picks pool →
  x ∈ pool ∧ (∀ y, y ∈ rest → y ∈ pool) ∧ length pool = S (length rest)
  ∧ (NoDup pool → (x ∉ rest) ∧ NoDup rest).
Proof.
  revert x rest. induction pool as [|z pool IH]; intros x rest; simpl.
  - by intros ?%not_elem_of_nil.
  - intros [Heq|Hin]%elem_of_cons.
    + injection Heq as -> ->. split; [left|]. split; [by right|].
      split; [done|]. by intros [? ?]%NoDup_cons.
    + apply list_elem_of_fmap in Hin as ([y rest'] & Heq & Hin).
      simpl in Heq. injection Heq as -> ->.
      apply IH in Hin as (Hy & Hrest & Hlen & Hnd).
      split; [by right|]. split; [|split].
      * intros w [->|Hw]%elem_of_cons; [left|right; auto].
      * simpl. by rewrite Hlen.
      * intros [Hz Hpool]%NoDup_cons. destruct (Hnd Hpool) as [Hy' Hrest'].
        split.
        -- intros [->|?]%elem_of_cons; [done|done].
        -- apply NoDup_cons. split; [|done]. intros ?%Hrest. done.
Qed.

Lemma elem_of_permutations_nat pool r l :
  l ∈ Py.permutations_nat pool r →
  length l = r ∧ (∀ x, x ∈ l → x ∈ pool) ∧ (NoDup pool → NoDup l).
Proof.
  revert pool l. induction r as [|r IH]; intros pool l; simpl.
  - intros ->%list_elem_of_singleton. split; [done|].
    split; [by intros x ?%not_elem_of_nil|]. intros _. constructor.
  - intros ([x rest] & (l' & Hl & Hl')%list_elem_of_bind & Hp)%list_elem_of_bind.
    simpl in *. apply list_elem_of_singleton in Hl as ->.
    apply elem_of_picks in Hp as (Hx & Hrest & _ & Hnd).
    apply IH in Hl' as (<- & Hl' & Hnd').
    split; [done|]. split.
    + intros y [->|Hy]%elem_of_cons; auto.
    + intros Hpool. destruct (Hnd Hpool) as [Hx' Hrest'].
      apply NoDup_cons. split; [|auto]. intros ?%Hl'. done.
Qed.

Lemma permutations_nat_too_long pool r :
  (length pool < r)%nat → Py.permutations_nat pool r = [].
Proof.
  revert pool. induction r as [|r IH]; intros pool Hlen; [lia|].
  simpl. destruct (Py.picks pool) as [|p ps] eqn:Hpicks; [done|].
  assert (Hall : ∀ q, q ∈ Py.picks pool → Py.permutations_nat q.2 r = []).
  { intros [x rest] Hq. apply elem_of_picks in Hq as (_ & _ & Hl & _).
    apply IH. simpl. lia. }
  rewrite <-Hpicks. clear Hpicks.
  induction (Py.picks pool) as [|q qs IHq]; [done|].
  simpl. rewrite (Hall q) by left. simpl.
  apply IHq. intros q' Hq'. apply Hall. by right.
Qed.

Lemma permutations_in_product pool r l :
  l ∈ Py.permutations_nat pool r → l ∈ Py.product_nat pool r.
Proof.
  intros (Hlen & Hl & _)%elem_of_permutations_nat.
  by apply elem_of_product_nat.
Qed.

End code_spaces.

(** ** Construction of a game *)

Lemma COLORS_NoDup : NoDup COLORS.
Proof. apply (bool_decide_unpack _). vm_compute. exact I. Qed.

Lemma COLORS_len : Py.len COLORS = 6.
Proof. reflexivity. Qed.

(** What [__init__] does, by cases on its arguments. *)
Lemma init_cases (dups : bool) (n : Z) :
  MastermindGame_init dups n =
    if decide (0 ≤ n ≤ 6) then
      Py.Ok (fresh_game dups n
               (if dups then Py.product_nat COLORS (Z.to_nat n)
                else Py.permutations_nat COLORS (Z.to_nat n))
             <$> Py.permutations_nat COLORS (Z.to_nat n))
    else Py.Raise Py.ValueError.
Proof.
  unfold MastermindGame_init, Py.product, Py.permutations, Py.random_sample.
  rewrite COLORS_len.
  destruct dups; repeat case_decide; simpl; try done; lia.
Qed.

Lemma init_game (dups : bool) (n : Z) games game :
  MastermindGame_init dups n = Py.Ok games → game ∈ games →
  ∃ secret,
    secret ∈ Py.permutations_nat COLORS (Z.to_nat n)
    ∧ game = fresh_game dups n
               (if dups then Py.product_nat COLORS (Z.to_nat n)
                else Py.permutations_nat COLORS (Z.to_nat n)) secret.
Proof.
  rewrite init_cases. case_decide; [|done].
  intros [= <-] (secret & -> & Hs)%list_elem_of_fmap. by exists secret.
Qed.

Lemma init_secret_NoDup (dups : bool) (n : Z) games game :
  MastermindGame_init dups n = Py.Ok games → game ∈ games →
  NoDup (secret_code game).
Proof.
  intros Hinit Hgame.
  destruct (init_game _ _ _ _ Hinit Hgame) as (secret & Hs & ->). simpl.
  apply elem_of_permutations_nat in Hs as (_ & _ & Hnd).
  apply Hnd, COLORS_NoDup.
Qed.

Lemma init_secret_possible (dups : bool) (n : Z) games game :
  MastermindGame_init dups n = Py.Ok games → game ∈ games →
  secret_code game ∈ possible_codes game.
Proof.
  intros Hinit Hgame.
  destruct (init_game _ _ _ _ Hinit Hgame) as (secret & Hs & ->). simpl.
  destruct dups; [by apply permutations_in_product|done].
Qed.

(** With duplicates disallowed the secrets that can be drawn are the
    codes of the code space, each once. *)
Lemma init_distinct_secrets (n : Z) games :
  MastermindGame_init false n = Py.Ok games →
  secret_code <$> games = Py.permutations_nat COLORS (Z.to_nat n)
  ∧ ∀ game, game ∈ games →
            all_codes game = Py.permutations_nat COLORS (Z.to_nat n).
Proof.
  rewrite init_cases. case_decide; [|done]. intros [= <-]. split.
  - rewrite <-list_fmap_compose. apply list_fmap_id.
  - by intros game (secret & -> & _)%list_elem_of_fmap.
Qed.

(** *** The constructor on a platform *)

(** What [itertools] answers on the sample 64-bit platform at the ends of
    the range of [Py_ssize_t] and where memory runs out. *)
Example product_on_limits :
  Py.product_on Sample.machine COLORS (2 ^ 63) = Py.Raise Py.OverflowError
  ∧ Py.product_on Sample.machine COLORS (2 ^ 63 - 1)
    = Py.Raise Py.OverflowError
  ∧ Py.product_on Sample.machine COLORS (2 ^ 60) = Py.Raise Py.OverflowError
  ∧ Py.product_on Sample.machine COLORS (2 ^ 60 - 1)
    = Py.Raise Py.MemoryError
  ∧ Py.product_on Sample.machine COLORS (-1) = Py.Raise Py.ValueError
  ∧ Py.product_on Sample.machine COLORS (- 2 ^ 63) = Py.Raise Py.ValueError
  ∧ Py.product_on Sample.machine COLORS (- 2 ^ 63 - 1)
    = Py.Raise Py.OverflowError.
Proof. repeat split; by vm_compute. Qed.

Example permutations_on_limits :
  Py.permutations_on Sample.machine COLORS (2 ^ 63)
  = Py.Raise Py.OverflowError
  ∧ Py.permutations_on Sample.machine COLORS (2 ^ 63 - 1)
    = Py.Raise Py.MemoryError
  ∧ Py.permutations_on Sample.machine COLORS (2 ^ 60)
    = Py.Raise Py.MemoryError
  ∧ Py.permutations_on Sample.machine COLORS 7 = Py.Ok []
  ∧ Py.permutations_on Sample.machine COLORS (-1) = Py.Raise Py.ValueError
  ∧ Py.permutations_on Sample.machine COLORS (- 2 ^ 63)
    = Py.Raise Py.ValueError
  ∧ Py.permutations_on Sample.machine COLORS (- 2 ^ 63 - 1)
    = Py.Raise Py.OverflowError.
Proof. repeat split; by vm_compute. Qed.

Lemma product_on_cases {A} (m : Py.machine) (pool : list A) (repeat : Z) :
  Py.product_on m pool repeat
  = Py.Ok (Py.product_nat pool (Z.to_nat repeat)) ∧ 0 ≤ repeat
  ∨ ∃ e, Py.product_on m pool repeat = Py.Raise e
         ∧ (e = Py.ValueError ∨ e = Py.OverflowError ∨ e = Py.MemoryError).
Proof.
  unfold Py.product_on, Py.as_ssize_t, Py.list_of.
  case_decide; simpl; [|right; eauto].
  case_decide; [right; eauto|]. case_decide; [right; eauto|].
  destruct (Py.mem_new m repeat); [|right; eauto].
  destruct (Py.allocates m _); [left; split; [done|lia]|right; eauto].
Qed.

Lemma permutations_on_cases {A} (m : Py.machine) (pool : list A) (r : Z) :
  Py.permutations_on m pool r
  = Py.Ok (Py.permutations_nat pool (Z.to_nat r)) ∧ 0 ≤ r
  ∨ ∃ e, Py.permutations_on m pool r = Py.Raise e
         ∧ (e = Py.ValueError ∨ e = Py.OverflowError ∨ e = Py.MemoryError).
Proof.
  unfold Py.permutations_on, Py.as_ssize_t, Py.list_of.
  case_decide; simpl; [|right; eauto].
  case_decide; [right; eauto|].
  destruct (Py.mem_new m (Py.len pool) && Py.mem_new m r); [|right; eauto].
  destruct (Py.allocates m _); [left; split; [done|lia]|right; eauto].
Qed.

Lemma code_space_on_cases (m : Py.machine) (dups : bool) (n : Z) :
  code_space_on m dups n
  = Py.Ok (if dups then Py.product_nat COLORS (Z.to_nat n)
           else Py.permutations_nat COLORS (Z.to_nat n)) ∧ 0 ≤ n
  ∨ ∃ e, code_space_on m dups n = Py.Raise e
         ∧ (e = Py.ValueError ∨ e = Py.OverflowError ∨ e = Py.MemoryError).
Proof.
  destruct dups; [apply product_on_cases|apply permutations_on_cases].
Qed.

Lemma init_on_unfold (m : Py.machine) (dups : bool) (n : Z) :
  MastermindGame_init_on m dups n
  = (codes <- code_space_on m dups n ;;
     secrets <- Py.random_sample COLORS n ;;
     Py.Ok (fresh_game dups n codes <$> secrets)).
Proof. by destruct dups. Qed.

(** When the constructor builds games on a platform, they are the games
    it builds where nothing is limited. *)
Lemma init_on_built (m : Py.machine) (dups : bool) (n : Z) games :
  MastermindGame_init_on m dups n = Py.Ok games →
  0 ≤ n ≤ 6 ∧ MastermindGame_init dups n = Py.Ok games.
Proof.
  rewrite init_on_unfold, init_cases.
  destruct (code_space_on_cases m dups n) as [[-> Hn]|(e & -> & _)];
    [|done]. simpl. unfold Py.random_sample. rewrite COLORS_len.
  case_decide; [|done]. simpl. by intros [= <-].
Qed.

Lemma init_on_ok (m : Py.machine) (dups : bool) (n : Z) codes :
  0 ≤ n ≤ 6 → code_space_on m dups n = Py.Ok codes →
  MastermindGame_init_on m dups n
  = Py.Ok (fresh_game dups n codes
             <$> Py.permutations_nat COLORS (Z.to_nat n)).
Proof.
  intros Hn Hcodes. rewrite init_on_unfold, Hcodes. simpl.
  unfold Py.random_sample. rewrite COLORS_len. by rewrite decide_True.
Qed.

Lemma init_on_unconvertible (m : Py.machine) (dups : bool) (n : Z) :
  ¬ (- Py.ssize_t_max m - 1 ≤ n ≤ Py.ssize_t_max m) →
  MastermindGame_init_on m dups n = Py.Raise Py.OverflowError.
Proof.
  intros Hn. unfold MastermindGame_init_on, Py.product_on,
    Py.permutations_on, Py.as_ssize_t.
  destruct dups; by rewrite decide_False.
Qed.

Lemma init_on_negative (m : Py.machine) (dups : bool) (n : Z) :
  - Py.ssize_t_max m - 1 ≤ n < 0 →
  MastermindGame_init_on m dups n = Py.Raise Py.ValueError.
Proof.
  intros Hn. unfold MastermindGame_init_on, Py.product_on,
    Py.permutations_on, Py.as_ssize_t.
  destruct dups; rewrite decide_True by lia; simpl;
    by rewrite decide_True by lia.
Qed.

Lemma init_on_too_long (m : Py.machine) (dups : bool) (n : Z) :
  6 < n →
  ∃ e, MastermindGame_init_on m dups n = Py.Raise e
       ∧ (e = Py.ValueError ∨ e = Py.OverflowError ∨ e = Py.MemoryError).
Proof.
  intros Hn. rewrite init_on_unfold.
  destruct (code_space_on_cases m dups n) as [[-> _]|(e & -> & He)];
    [|by exists e]. simpl. unfold Py.random_sample. rewrite COLORS_len.
  rewrite decide_False by lia. simpl. eauto.
Qed.

Lemma init_on_too_long_distinct (m : Py.machine) (n : Z) codes :
  6 < n → Py.permutations_on m COLORS n = Py.Ok codes →
  codes = [] ∧ MastermindGame_init_on m false n = Py.Raise Py.ValueError.
Proof.
  intros Hn Hcodes.
  destruct (permutations_on_cases m COLORS n) as [[Hok _]|(e & He & _)];
    [|congruence].
  rewrite Hok in Hcodes. injection Hcodes as <-. split.
  - apply permutations_nat_too_long. change (length COLORS) with 6%nat. lia.
  - unfold MastermindGame_init_on. rewrite Hok. simpl.
    unfold Py.random_sample. rewrite COLORS_len.
    by rewrite decide_False by lia.
Qed.

(** ** Turns *)

Lemma filter_codes_retains codes (s guess : list string) :
  s ∈ codes → s ∈ filter_codes codes guess (calculate_feedback guess s).
Proof. intros Hs. unfold filter_codes. by apply list_elem_of_filter. Qed.

Lemma filter_codes_subset codes (guess c : list string) feedback :
  c ∈ filter_codes codes guess feedback → c ∈ codes.
Proof. unfold filter_codes. by intros [_ ?]%list_elem_of_filter. Qed.

Lemma play_turn_solved self guess :
  calculate_feedback guess (secret_code self) = (code_length self, 0) →
  play_turn self guess =
    (true,
     {| allow_duplicates := allow_duplicates self;
        code_length := code_length self;
        all_codes := all_codes self;
        secret_code := secret_code self;
        possible_codes := possible_codes self;
        guesses := guesses self ++ [guess];
        feedbacks := feedbacks self ++ [(code_length self, 0)] |}).
Proof. intros Hfb. unfold play_turn. rewrite Hfb. by rewrite decide_True. Qed.

Lemma play_turn_unsolved self guess :
  calculate_feedback guess (secret_code self) ≠ (code_length self, 0) →
  play_turn self guess =
    (false,
     {| allow_duplicates := allow_duplicates self;
        code_length := code_length self;
        all_codes := all_codes self;
        secret_code := secret_code self;
        possible_codes :=
          filter_codes (possible_codes self) guess
            (calculate_feedback guess (secret_code self));
        guesses := guesses self ++ [guess];
        feedbacks :=
          feedbacks self ++ [calculate_feedback guess (secret_code self)] |}).
Proof. intros Hfb. unfold play_turn. by rewrite decide_False. Qed.

(** The two outcomes of a turn, for case analysis. *)
Lemma play_turn_cases self guess :
  (calculate_feedback guess (secret_code self) = (code_length self, 0)
   ∧ (play_turn self guess).1 = true
   ∧ possible_codes (play_turn self guess).2 = possible_codes self)
  ∨ (calculate_feedback guess (secret_code self) ≠ (code_length self, 0)
     ∧ (play_turn self guess).1 = false
     ∧ possible_codes (play_turn self guess).2
       = filter_codes (possible_codes self) guess
           (calculate_feedback guess (secret_code self))).
Proof.
  destruct (decide (calculate_feedback guess (secret_code self)
                    = (code_length self, 0))) as [Hfb|Hfb].
  - left. by rewrite (play_turn_solved _ _ Hfb).
  - right. by rewrite (play_turn_unsolved _ _ Hfb).
Qed.

Lemma play_turn_history self guess :
  guesses (play_turn self guess).2 = guesses self ++ [guess]
  ∧ feedbacks (play_turn self guess).2
    = feedbacks self ++ [calculate_feedback guess (secret_code self)].
Proof. unfold play_turn. by case_decide. Qed.

Lemma play_turn_frame self guess :
  secret_code (play_turn self guess).2 = secret_code self
  ∧ all_codes (play_turn self guess).2 = all_codes self
  ∧ code_length (play_turn self guess).2 = code_length self
  ∧ allow_duplicates (play_turn self guess).2 = allow_duplicates self.
Proof. unfold play_turn. by case_decide. Qed.

Lemma play_turn_retains self guess :
  secret_code self ∈ possible_codes self →
  secret_code self ∈ possible_codes (play_turn self guess).2.
Proof.
  intros Hs.
  destruct (play_turn_cases self guess) as [(_ & _ & ->)|(_ & _ & ->)];
    [done|by apply filter_codes_retains].
Qed.

Lemma play_turns_snoc self turns guess :
  play_turns self (turns ++ [guess])
  = (play_turn (play_turns self turns) guess).2.
Proof. unfold play_turns. by rewrite foldl_app. Qed.

Lemma play_turns_retains self turns :
  secret_code self ∈ possible_codes self →
  secret_code (play_turns self turns) = secret_code self
  ∧ secret_code self ∈ possible_codes (play_turns self turns).
Proof.
  intros Hs. induction turns as [|guess turns [IHs IHp]] using rev_ind.
  - done.
  - rewrite play_turns_snoc.
    destruct (play_turn_frame (play_turns self turns) guess) as [-> _].
    split; [done|]. rewrite <-IHs. apply play_turn_retains. by rewrite IHs.
Qed.

(** ** The guess selector *)

Lemma foldl_max_spec (a : Z) (l : list Z) :
  foldl Z.max a l ∈ a :: l ∧ ∀ x, x ∈ a :: l → x ≤ foldl Z.max a l.
Proof.
  revert a. induction l as [|y l IH]; intros a; simpl.
  - split; [left|]. by intros x ->%list_elem_of_singleton.
  - destruct (IH (Z.max a y)) as [Hin Hub]. split.
    + apply elem_of_cons in Hin as [->|Hin]; [|by do 2 right].
      destruct (Z.max_spec a y) as [[_ ->]|[_ ->]]; [right|]; left.
    + intros x Hx.
      assert (Z.max a y ≤ foldl Z.max (Z.max a y) l) by (apply Hub; left).
      apply elem_of_cons in Hx as [->|Hx]; [lia|].
      apply elem_of_cons in Hx as [->|Hx]; [lia|].
      apply Hub. by right.
Qed.

Lemma max_spec (l : list Z) :
  l ≠ [] → ∃ m, Py.max l = Py.Ok m ∧ m ∈ l ∧ ∀ x, x ∈ l → x ≤ m.
Proof.
  destruct l as [|a l]; [done|]. intros _.
  exists (foldl Z.max a l). split; [done|]. apply foldl_max_spec.
Qed.

Lemma part_size_nonneg guess codes feedback : 0 ≤ part_size guess codes feedback.
Proof. unfold part_size, Py.len. lia. Qed.

Lemma part_size_snoc guess codes code feedback :
  part_size guess (codes ++ [code]) feedback
  = part_size guess codes feedback
    + (if decide (calculate_feedback guess code = feedback) then 1 else 0).
Proof.
  unfold part_size, filter_codes, Py.len.
  rewrite filter_app, length_app, filter_cons, filter_nil.
  case_decide; simpl; lia.
Qed.

(** A part is not empty exactly when some code has its feedback. *)
Lemma part_size_pos guess codes feedback :
  0 < part_size guess codes feedback
  ↔ ∃ code, code ∈ codes ∧ calculate_feedback guess code = feedback.
Proof.
  unfold part_size, filter_codes, Py.len. split.
  - intros Hpos.
    destruct (filter (λ code, calculate_feedback guess code = feedback) codes)
      as [|code l] eqn:Hf; [simpl in Hpos; lia|].
    exists code. assert (Hin : code ∈ code :: l) by left.
    rewrite <-Hf in Hin. apply list_elem_of_filter in Hin as [? ?]. done.
  - intros (code & Hin & Hfb).
    assert (Hc : code ∈ filter (λ code, calculate_feedback guess code = feedback) codes)
      by (by apply list_elem_of_filter).
    destruct (filter _ codes); [by apply not_elem_of_nil in Hc|simpl; lia].
Qed.

(** The dictionary holds, for each feedback that occurs, the size of its
    part, and nothing else. *)
Lemma feedback_counts_lookup guess codes feedback :
  feedback_counts guess codes !! feedback =
    if decide (part_size guess codes feedback = 0) then None
    else Some (part_size guess codes feedback).
Proof.
  revert feedback. induction codes as [|code codes IH] using rev_ind;
    intros feedback.
  - done.
  - unfold feedback_counts. rewrite foldl_app. simpl.
    fold (feedback_counts guess codes). rewrite part_size_snoc.
    pose proof (part_size_nonneg guess codes feedback).
    destruct (decide (calculate_feedback guess code = feedback)) as [->|Hne].
    + rewrite lookup_insert_eq, IH.
      repeat case_decide; simpl; try lia; f_equal; lia.
    + rewrite lookup_insert_ne, IH by done.
      repeat case_decide; try lia; f_equal; lia.
Qed.

Lemma elem_of_feedback_counts_values guess codes (n : Z) :
  n ∈ (map_to_list (feedback_counts guess codes)).*2
  ↔ 0 < n ∧ ∃ feedback, part_size guess codes feedback = n.
Proof.
  rewrite list_elem_of_fmap. split.
  - intros ([feedback m] & -> & Hin). simpl.
    apply elem_of_map_to_list in Hin. rewrite feedback_counts_lookup in Hin.
    pose proof (part_size_nonneg guess codes feedback).
    case_decide; [done|]. injection Hin as <-. split; [lia|by exists feedback].
  - intros [Hpos [feedback <-]]. exists (feedback, part_size guess codes feedback).
    split; [done|]. apply elem_of_map_to_list.
    rewrite feedback_counts_lookup. case_decide; [lia|done].
Qed.

Lemma foldr_max_upper {B} (h : B → Z) (l : list B) (x : B) :
  x ∈ l → h x ≤ foldr Z.max 0 (h <$> l).
Proof.
  induction l as [|y l IH]; [by intros ?%not_elem_of_nil|].
  rewrite fmap_cons. simpl foldr.
  intros [->|Hin]%elem_of_cons; [apply Z.le_max_l|].
  specialize (IH Hin). etrans; [done|apply Z.le_max_r].
Qed.

Lemma foldr_max_attained {B} (h : B → Z) (l : list B) :
  l ≠ [] → (∀ x, 0 ≤ h x) →
  ∃ x, x ∈ l ∧ h x = foldr Z.max 0 (h <$> l).
Proof.
  intros Hne Hnn. induction l as [|y l IH]; [done|]. clear Hne.
  rewrite fmap_cons. simpl foldr. destruct l as [|y' l].
  - exists y. split; [left|]. simpl. specialize (Hnn y). by rewrite Z.max_l.
  - destruct IH as (x & Hin & Heq); [done|].
    destruct (Z.max_spec (h y) (foldr Z.max 0 (h <$> y' :: l)))
      as [[_ Hm]|[_ Hm]]; rewrite Hm.
    + exists x. split; [by right|done].
    + exists y. split; [left|done].
Qed.

(** [worst] is the size of a largest part. *)
Lemma worst_upper guess codes code :
  code ∈ codes →
  part_size guess codes (calculate_feedback guess code) ≤ worst guess codes.
Proof.
  apply (foldr_max_upper
    (λ code, part_size guess codes (calculate_feedback guess code))).
Qed.

Lemma worst_attained guess codes :
  codes ≠ [] →
  ∃ code, code ∈ codes
          ∧ part_size guess codes (calculate_feedback guess code) = worst guess codes.
Proof.
  intros Hne.
  apply (foldr_max_attained
    (λ code, part_size guess codes (calculate_feedback guess code)));
    [done|]. intros. apply part_size_nonneg.
Qed.

Lemma worst_pos guess codes : codes ≠ [] → 0 < worst guess codes.
Proof.
  intros Hne. destruct (worst_attained guess codes Hne) as (code & Hin & <-).
  apply part_size_pos. by exists code.
Qed.

Lemma part_size_le_worst guess codes feedback :
  part_size guess codes feedback ≤ worst guess codes.
Proof.
  pose proof (part_size_nonneg guess codes feedback).
  destruct (decide (part_size guess codes feedback = 0)) as [Hz|Hne].
  - destruct codes as [|c codes]; [done|].
    pose proof (worst_pos guess (c :: codes) ltac:(done)). lia.
  - destruct (proj1 (part_size_pos guess codes feedback)) as (code & Hin & <-);
      [lia|]. by apply worst_upper.
Qed.

(** The maximum the code takes over the dictionary is [worst]. *)
Lemma max_eliminations_worst guess codes :
  codes ≠ [] → max_eliminations guess codes = Py.Ok (worst guess codes).
Proof.
  intros Hne. unfold max_eliminations.
  destruct (worst_attained guess codes Hne) as (code & Hin & Hw).
  pose proof (worst_pos guess codes Hne) as Hpos.
  assert (Hv : worst guess codes ∈ (map_to_list (feedback_counts guess codes)).*2).
  { apply elem_of_feedback_counts_values. split; [done|]. eauto. }
  destruct (max_spec ((map_to_list (feedback_counts guess codes)).*2))
    as (m & -> & Hm & Hub); [by eapply elem_of_not_nil|].
  f_equal. apply Z.le_antisymm.
  - apply elem_of_feedback_counts_values in Hm as [_ [feedback <-]].
    apply part_size_le_worst.
  - by apply Hub.
Qed.

Lemma max_eliminations_empty guess :
  max_eliminations guess [] = Py.Raise Py.ValueError.
Proof. reflexivity. Qed.

Lemma lt_num_trans (n m : Z) (bound : Py.num) :
  n < m → Py.lt_num m bound = true → Py.lt_num n bound = true.
Proof.
  destruct bound as [b|]; simpl; [|done].
  intros Hnm Hm%bool_decide_eq_true. apply bool_decide_eq_true. lia.
Qed.

Lemma lt_num_cross (n m : Z) (bound : Py.num) :
  Py.lt_num n bound = true → Py.lt_num m bound = false → n < m.
Proof.
  destruct bound as [b|]; simpl; [|done].
  intros Hn%bool_decide_eq_true Hm%bool_decide_eq_false. lia.
Qed.

(** The outer loop, from any point on: either no later guess improves on
    the running minimum, or the result is the first later guess with the
    smallest largest part. *)
Lemma minimax_loop_spec codes :
  codes ≠ [] →
  ∀ universe best bound,
    ∃ r, minimax_loop universe codes best bound = Py.Ok r
         ∧ ((r = best
             ∧ ∀ g, g ∈ universe → Py.lt_num (worst g codes) bound = false)
            ∨ (∃ g, r = Some g
                    ∧ Py.lt_num (worst g codes) bound = true
                    ∧ is_first_minimax universe codes g)).
Proof.
  intros Hne. induction universe as [|guess universe IH]; intros best bound.
  { exists best. split; [done|]. left. split; [done|].
    by intros g ?%not_elem_of_nil. }
  simpl. rewrite (max_eliminations_worst _ _ Hne). simpl.
  destruct (Py.lt_num (worst guess codes) bound) eqn:Hlt.
  - destruct (IH (Some guess) (Py.Int (worst guess codes)))
      as (r & -> & [[-> Hrest]|(g & -> & Hg & i & Hi & Hmin & Hfirst)]).
    + exists (Some guess). split; [done|]. right. exists guess.
      split; [done|]. split; [done|]. exists 0%nat. split; [done|]. split.
      * intros g [->|Hin]%elem_of_cons; [done|].
        specialize (Hrest g Hin). simpl in Hrest.
        apply bool_decide_eq_false in Hrest. lia.
      * intros j g Hj. lia.
    + simpl in Hg. apply bool_decide_eq_true in Hg.
      exists (Some g). split; [done|]. right. exists g.
      split; [done|]. split; [by eapply lt_num_trans|].
      exists (S i). split; [done|]. split.
      * intros g' [->|Hin]%elem_of_cons; [lia|by apply Hmin].
      * intros [|j] g' Hj; simpl.
        -- intros [= <-]. done.
        -- apply Hfirst. lia.
  - destruct (IH best bound)
      as (r & -> & [[-> Hrest]|(g & -> & Hg & i & Hi & Hmin & Hfirst)]).
    + exists best. split; [done|]. left. split; [done|].
      intros g [->|Hin]%elem_of_cons; [done|by apply Hrest].
    + pose proof (lt_num_cross _ _ _ Hg Hlt).
      exists (Some g). split; [done|]. right. exists g.
      split; [done|]. split; [done|].
      exists (S i). split; [done|]. split.
      * intros g' [->|Hin]%elem_of_cons; [lia|by apply Hmin].
      * intros [|j] g' Hj; simpl.
        -- intros [= <-]. done.
        -- apply Hfirst. lia.
Qed.

Lemma minimax_guess_spec self :
  possible_codes self ≠ [] → all_codes self ≠ [] →
  ∃ g, _minimax_guess self = Py.Ok (Some g)
       ∧ is_first_minimax (all_codes self) (possible_codes self) g.
Proof.
  intros Hcodes Huniverse. unfold _minimax_guess.
  destruct (minimax_loop_spec _ Hcodes (all_codes self) None Py.PosInf)
    as (r & -> & [[-> Hrest]|(g & -> & _ & Hg)]).
  - destruct (all_codes self) as [|g universe]; [done|].
    specialize (Hrest g). simpl in Hrest. discriminate Hrest. left.
  - by exists g.
Qed.

(** With no candidate left, [max] is called on an empty sequence. *)
Lemma minimax_guess_no_candidate self :
  possible_codes self = [] → all_codes self ≠ [] →
  _minimax_guess self = Py.Raise Py.ValueError.
Proof.
  intros Hcodes Huniverse. unfold _minimax_guess. rewrite Hcodes.
  by destruct (all_codes self).
Qed.

Lemma next_guess_single self code :
  possible_codes self = [code] → next_guess self = Py.Ok (Some code).
Proof. intros Hcodes. unfold next_guess. by rewrite Hcodes. Qed.

Lemma next_guess_search self :
  length (possible_codes self) ≠ 1%nat → next_guess self = _minimax_guess self.
Proof.
  unfold next_guess. by destruct (possible_codes self) as [|c [|c' codes]].
Qed.

(** In a game built by the constructor, after any turns, [next_guess]
    finds a guess. *)
Lemma play_turns_all_codes self turns :
  all_codes (play_turns self turns) = all_codes self.
Proof.
  induction turns as [|guess turns IH] using rev_ind; [done|].
  rewrite play_turns_snoc.
  destruct (play_turn_frame (play_turns self turns) guess) as (_ & -> & _).
  done.
Qed.

Lemma next_guess_of_built_game (dups : bool) (n : Z) games game turns :
  MastermindGame_init dups n = Py.Ok games → game ∈ games →
  ∃ g, next_guess (play_turns game turns) = Py.Ok (Some g).
Proof.
  intros Hinit Hgame.
  pose proof (init_secret_possible _ _ _ _ Hinit Hgame) as Hs.
  destruct (play_turns_retains game turns Hs) as [_ Hs'].
  destruct (possible_codes (play_turns game turns))
    as [|c [|c' codes]] eqn:Hcodes.
  - by apply not_elem_of_nil in Hs'.
  - exists c. by apply next_guess_single.
  - rewrite next_guess_search by (rewrite Hcodes; simpl; lia).
    destruct (minimax_guess_spec (play_turns game turns)) as (g & -> & _).
    + by rewrite Hcodes.
    + rewrite play_turns_all_codes.
      destruct (init_game _ _ _ _ Hinit Hgame) as (secret & _ & Heq).
      rewrite Heq in Hs |- *. simpl in *. by eapply elem_of_not_nil.
    + by exists g.
Qed.

(** * The claims *)

(** ** The feedback evaluator: C2, C8, C9 *)

(** C2. For every pair of codes (in particular every pair of equal
    length), the evaluator returns as [exact] the number of index
    positions where the two codes hold equal symbols, and as [colorOnly]
    the sum over the distinct symbols of the guess of the smaller of the
    two counts, minus [exact]; and the score of (Red, Red, Green, Green)
    against (Red, Green, Yellow, Blue) is (1, 1). *)
Theorem C2_feedback_formula :
  (∀ (A : Type) (EqA : EqDecision A) (CountA : Countable A)
     (guess code : list A),
      calculate_feedback guess code = spec_score guess code)
  ∧ calculate_feedback ["Red"; "Red"; "Green"; "Green"]%string
                       ["Red"; "Green"; "Yellow"; "Blue"]%string = (1, 1).
Proof.
  split; [|by vm_compute].
  intros A EqA CountA guess code. unfold calculate_feedback, spec_score.
  by rewrite correct_position_spec, common_colors_spec.
Qed.

(** C8. The evaluator is symmetric: [score(a, b) = score(b, a)] for all
    codes [a] and [b] (equal length included), although the sum of the
    common colours runs over the distinct symbols of the first argument
    only. *)
Theorem C8_feedback_symmetric `{Countable A} (a b : list A) :
  calculate_feedback a b = calculate_feedback b a.
Proof.
  unfold calculate_feedback.
  by rewrite (correct_position_sym a b), (common_colors_sym a b).
Qed.

(** C9. For two codes of the same length [L], the feedback
    [(exact, colorOnly)] satisfies [0 <= exact <= L], [colorOnly >= 0]
    and [exact + colorOnly <= L]. *)
Theorem C9_feedback_bounds `{Countable A} (guess code : list A) (L : Z) :
  Py.len guess = L → Py.len code = L →
  0 ≤ (calculate_feedback guess code).1 ≤ L
  ∧ 0 ≤ (calculate_feedback guess code).2
  ∧ (calculate_feedback guess code).1 + (calculate_feedback guess code).2 ≤ L.
Proof.
  intros <- _. simpl.
  pose proof (correct_position_nonneg guess code).
  pose proof (correct_position_le_len guess code).
  pose proof (correct_position_le_common guess code).
  pose proof (common_colors_le_len guess code).
  lia.
Qed.

Lemma C9_feedback_bounds_witness :
  0 ≤ (calculate_feedback Sample.opening Sample.secret).1 ≤ 4
  ∧ 0 ≤ (calculate_feedback Sample.opening Sample.secret).2
  ∧ (calculate_feedback Sample.opening Sample.secret).1
    + (calculate_feedback Sample.opening Sample.secret).2 ≤ 4.
Proof.
  apply (C9_feedback_bounds Sample.opening Sample.secret 4); reflexivity.
Defined.

(** ** Turns: C3, C10, C7 *)

(** C3. Secret retention: a secret that is among the candidates is still
    among them after filtering with any guess and the truthful feedback
    of that guess against the secret; hence a game whose secret is a
    candidate keeps it as a candidate through any sequence of turns, and
    this is so from the start for every game the constructor builds. *)
Theorem C3_secret_retention :
  (∀ codes (s guess : list string),
      s ∈ codes → s ∈ filter_codes codes guess (calculate_feedback guess s))
  ∧ (∀ self turns,
        secret_code self ∈ possible_codes self →
        secret_code self ∈ possible_codes (play_turns self turns))
  ∧ (∀ dups n games game turns,
        MastermindGame_init dups n = Py.Ok games → game ∈ games →
        secret_code game ∈ possible_codes (play_turns game turns)).
Proof.
  split; [apply filter_codes_retains|]. split.
  - intros self turns Hs. by apply play_turns_retains.
  - intros dups n games game turns Hinit Hgame.
    apply play_turns_retains. by eapply init_secret_possible.
Qed.

Lemma C3_secret_retention_witness :
  Sample.secret
    ∈ filter_codes [Sample.opening; Sample.secret] Sample.opening
        (calculate_feedback Sample.opening Sample.secret)
  ∧ secret_code Sample.last_candidate
      ∈ possible_codes (play_turns Sample.last_candidate [Sample.opening]).
Proof.
  split.
  - apply (proj1 C3_secret_retention). right. left.
  - apply (proj1 (proj2 C3_secret_retention)). left.
Defined.

(** C10. On a solving turn, when the feedback is [(code_length, 0)],
    [play_turn] returns [True] after appending the guess and the feedback
    to the history and leaves [possible_codes] as it was; on any other
    turn it returns [False] and [possible_codes] is filtered. *)
Theorem C10_solving_turn_keeps_candidates self guess :
  (calculate_feedback guess (secret_code self) = (code_length self, 0) →
   (play_turn self guess).1 = true
   ∧ guesses (play_turn self guess).2 = guesses self ++ [guess]
   ∧ feedbacks (play_turn self guess).2
     = feedbacks self ++ [(code_length self, 0)]
   ∧ possible_codes (play_turn self guess).2 = possible_codes self)
  ∧ (calculate_feedback guess (secret_code self) ≠ (code_length self, 0) →
     (play_turn self guess).1 = false
     ∧ possible_codes (play_turn self guess).2
       = filter_codes (possible_codes self) guess
           (calculate_feedback guess (secret_code self))).
Proof.
  split; intros Hfb.
  - by rewrite (play_turn_solved _ _ Hfb).
  - by rewrite (play_turn_unsolved _ _ Hfb).
Qed.

Lemma C10_solving_turn_keeps_candidates_witness :
  ((play_turn Sample.game Sample.secret).1 = true
   ∧ guesses (play_turn Sample.game Sample.secret).2
     = guesses Sample.game ++ [Sample.secret]
   ∧ feedbacks (play_turn Sample.game Sample.secret).2
     = feedbacks Sample.game ++ [(code_length Sample.game, 0)]
   ∧ possible_codes (play_turn Sample.game Sample.secret).2
     = possible_codes Sample.game)
  ∧ ((play_turn Sample.game Sample.opening).1 = false
     ∧ possible_codes (play_turn Sample.game Sample.opening).2
       = filter_codes (possible_codes Sample.game) Sample.opening
           (calculate_feedback Sample.opening (secret_code Sample.game))).
Proof.
  split.
  - apply (proj1 (C10_solving_turn_keeps_candidates Sample.game Sample.secret)).
    reflexivity.
  - apply (proj2 (C10_solving_turn_keeps_candidates Sample.game Sample.opening)).
    vm_compute. discriminate.
Defined.

(** C7, as the code has it. [play_turn] checks nothing about the guess:
    every guess, whatever its length and symbols, is scored against the
    secret and appended to [guesses], its feedback is appended to
    [feedbacks], and the other fields apart from [possible_codes] are
    kept. *)
Theorem C7_play_turn_accepts_any_guess self (guess : list string) :
  guesses (play_turn self guess).2 = guesses self ++ [guess]
  ∧ feedbacks (play_turn self guess).2
    = feedbacks self ++ [calculate_feedback guess (secret_code self)]
  ∧ secret_code (play_turn self guess).2 = secret_code self
  ∧ all_codes (play_turn self guess).2 = all_codes self
  ∧ code_length (play_turn self guess).2 = code_length self
  ∧ allow_duplicates (play_turn self guess).2 = allow_duplicates self.
Proof.
  destruct (play_turn_history self guess) as [-> ->].
  destruct (play_turn_frame self guess) as (-> & -> & -> & ->). done.
Qed.

(** C7 fails as stated: a guess of the wrong length, and a guess with a
    symbol outside the alphabet, are both invalid in the sense of the
    specification, yet [play_turn] returns [False] for them and has
    recorded them in the history. *)
Lemma C7_invalid_guess_is_recorded :
  ¬ spec_valid_guess Sample.game Sample.short_guess
  ∧ play_turn Sample.game Sample.short_guess
    = (false, (play_turn Sample.game Sample.short_guess).2)
  ∧ guesses (play_turn Sample.game Sample.short_guess).2 = [Sample.short_guess]
  ∧ guesses Sample.game = []
  ∧ ¬ spec_valid_guess Sample.game Sample.foreign_guess
  ∧ guesses (play_turn Sample.game Sample.foreign_guess).2
    = [Sample.foreign_guess]
  ∧ feedbacks (play_turn Sample.game Sample.foreign_guess).2 = [(1, 2)].
Proof.
  split; [by intros [Hlen _]|].
  split; [by rewrite play_turn_unsolved by (vm_compute; discriminate)|].
  split; [apply play_turn_history|]. split; [done|].
  split.
  - intros (_ & Hsym & _). specialize (Hsym "Pink"%string).
    assert (Hin : "Pink"%string ∈ COLORS) by (apply Hsym; left).
    revert Hin. apply (bool_decide_unpack _). by vm_compute.
  - split; [apply play_turn_history|].
    rewrite (proj2 (play_turn_history _ _)). by vm_compute.
Qed.

(** ** The guess selector: C1 *)

(** C1. If exactly one candidate remains, [next_guess] returns it.
    Otherwise (some candidates remain and the universe is not empty) it
    returns a code [g] of the universe [all_codes] such that, [worst]
    being the size of the largest part of the partition of the
    candidates by their score against a guess, [worst g] is the least
    over the whole universe and every code before [g] in the order of
    the universe has a strictly larger [worst]. *)
Theorem C1_next_guess_minimax self :
  (∀ code, possible_codes self = [code] →
           next_guess self = Py.Ok (Some code))
  ∧ (length (possible_codes self) ≠ 1%nat →
     possible_codes self ≠ [] → all_codes self ≠ [] →
     ∃ g, next_guess self = Py.Ok (Some g)
          ∧ is_first_minimax (all_codes self) (possible_codes self) g)
  ∧ (∀ g feedback,
        part_size g (possible_codes self) feedback
        ≤ worst g (possible_codes self))
  ∧ (possible_codes self ≠ [] →
     ∀ g, ∃ code,
       code ∈ possible_codes self
       ∧ part_size g (possible_codes self) (calculate_feedback g code)
         = worst g (possible_codes self)).
Proof.
  split; [apply next_guess_single|]. split; [|split].
  - intros Hlen Hcodes Huniverse. rewrite next_guess_search by done.
    by apply minimax_guess_spec.
  - intros g feedback. apply part_size_le_worst.
  - intros Hcodes g. by apply worst_attained.
Qed.

Lemma C1_next_guess_minimax_witness :
  next_guess Sample.last_candidate = Py.Ok (Some Sample.secret)
  ∧ ∃ g, next_guess Sample.after_opening = Py.Ok (Some g)
         ∧ is_first_minimax (all_codes Sample.after_opening)
             (possible_codes Sample.after_opening) g.
Proof.
  split.
  - apply (proj1 (C1_next_guess_minimax Sample.last_candidate)). reflexivity.
  - apply (proj1 (proj2 (C1_next_guess_minimax Sample.after_opening))).
    + vm_compute. discriminate.
    + intros Hnil%(f_equal length). vm_compute in Hnil. discriminate.
    + intros Hnil%(f_equal length). vm_compute in Hnil. discriminate.
Defined.

(** ** Construction: C4, C5 *)

(** C4, evaluated on the code. With duplicates allowed and length 4 the
    code (Red, Red, Green, Green) belongs to the code space of every game
    the constructor can build, and it is the secret of none of them:
    [random.sample] never repeats a colour. *)
Theorem C4_secret_never_repeats_a_colour games game :
  MastermindGame_init true 4 = Py.Ok games → game ∈ games →
  Sample.opening ∈ all_codes game
  ∧ secret_code game ≠ Sample.opening
  ∧ NoDup (secret_code game).
Proof.
  intros Hinit Hgame.
  pose proof (init_secret_NoDup _ _ _ _ Hinit Hgame) as Hnd.
  destruct (init_game _ _ _ _ Hinit Hgame) as (secret & Hs & ->).
  cbn [all_codes secret_code fresh_game] in *. split; [|split; [|done]].
  - apply elem_of_product_nat. split; [reflexivity|].
    apply Forall_forall, (bool_decide_unpack _). by vm_compute.
  - intros ->. revert Hnd. apply (bool_decide_unpack _). by vm_compute.
Qed.

Lemma C4_secret_never_repeats_a_colour_witness :
  Sample.opening ∈ all_codes Sample.game
  ∧ secret_code Sample.game ≠ Sample.opening
  ∧ NoDup (secret_code Sample.game).
Proof.
  apply (C4_secret_never_repeats_a_colour
           (fresh_game true 4 (Py.product_nat COLORS 4)
              <$> Py.permutations_nat COLORS 4)).
  - rewrite init_cases. reflexivity.
  - apply list_elem_of_fmap. exists Sample.secret. split; [reflexivity|].
    apply (bool_decide_unpack _). vm_compute. exact I.
Defined.

(** C5, as the code has it. With duplicates disallowed, a code length
    above the size of the alphabet never gives a game: the constructor
    fails with [ValueError], [OverflowError] or [MemoryError]. Whenever
    [itertools.permutations] itself goes through on the platform, the
    code space it gives is empty and what fails is [random.sample], with
    [ValueError]. *)
Theorem C5_length_above_alphabet_fails (m : Py.machine) (n : Z) :
  Py.len COLORS < n →
  (∃ e, MastermindGame_init_on m false n = Py.Raise e
        ∧ (e = Py.ValueError ∨ e = Py.OverflowError ∨ e = Py.MemoryError))
  ∧ (∀ codes, Py.permutations_on m COLORS n = Py.Ok codes →
              codes = []
              ∧ MastermindGame_init_on m false n = Py.Raise Py.ValueError).
Proof.
  intros Hlen. rewrite COLORS_len in Hlen. split.
  - by apply init_on_too_long.
  - intros codes. by apply init_on_too_long_distinct.
Qed.

Lemma C5_length_above_alphabet_fails_witness :
  (∃ e, MastermindGame_init_on Sample.machine false 7 = Py.Raise e
        ∧ (e = Py.ValueError ∨ e = Py.OverflowError ∨ e = Py.MemoryError))
  ∧ MastermindGame_init_on Sample.machine false 7 = Py.Raise Py.ValueError.
Proof.
  destruct (C5_length_above_alphabet_fails Sample.machine 7) as [Hfails Hsample];
    [vm_compute; reflexivity|].
  split; [exact Hfails|]. apply (Hsample []). vm_compute. reflexivity.
Defined.

(** C5 fails as stated: with length 7 and duplicates disallowed the
    constructor raises [ValueError], which is not
    [InvalidConfigurationError]. *)
Lemma C5_no_InvalidConfigurationError :
  MastermindGame_init_on Sample.machine false 7 = Py.Raise "ValueError"
  ∧ MastermindGame_init_on Sample.machine false 7
    ≠ Py.Raise "InvalidConfigurationError".
Proof.
  assert (Hinit : MastermindGame_init_on Sample.machine false 7
                  = Py.Raise "ValueError") by (by vm_compute).
  rewrite Hinit. split; [done|]. intros [=].
Qed.


(** * Further properties of the engine *)

(** ** The feedback evaluator *)

Section feedback_more.
Context `{Countable A}.
Implicit Types (a b guess code : list A) (s : A).

Lemma correct_position_le_len_r a b : correct_position_of a b ≤ Py.len b.
Proof. rewrite correct_position_sym. apply correct_position_le_len. Qed.

Lemma common_colors_le_len_r a b : common_colors a b ≤ Py.len b.
Proof. rewrite common_colors_sym. apply common_colors_le_len. Qed.

(** Every position of [code] is an exact match exactly when [code] is
    the beginning of [guess]. *)
Lemma correct_position_full guess code :
  correct_position_of guess code = Py.len code ↔ code `prefix_of` guess.
Proof.
  revert guess. induction code as [|y code IH]; intros guess.
  - split; [intros _; apply prefix_nil|intros _].
    apply correct_position_nil_r.
  - destruct guess as [|x guess].
    + split; [|by intros ?%prefix_nil_not].
      unfold Py.len. simpl. intros Hz.
      change (correct_position_of [] (y :: code)) with 0 in Hz. lia.
    + rewrite correct_position_cons.
      pose proof (correct_position_le_len_r guess code) as Hle.
      unfold Py.len in *. simpl length. unfold Py.int_of_bool. split.
      * case_bool_decide as Hxy; [|lia]. subst y. intros Hcp.
        apply prefix_cons, IH. unfold Py.len. lia.
      * intros Hp. pose proof (prefix_cons_inv_1 _ _ _ _ Hp) as ->.
        apply prefix_cons_inv_2, IH in Hp. unfold Py.len in Hp.
        rewrite bool_decide_eq_true_2 by done. lia.
Qed.

Lemma full_feedback_iff_prefix guess code :
  calculate_feedback guess code = (Py.len code, 0) ↔ code `prefix_of` guess.
Proof.
  unfold calculate_feedback. split.
  - intros [= Hcp _]. by apply correct_position_full.
  - intros Hcp%correct_position_full. rewrite Hcp. f_equal.
    pose proof (correct_position_le_common guess code).
    pose proof (common_colors_le_len_r guess code). lia.
Qed.

Lemma full_feedback_iff_eq guess code :
  length guess = length code →
  calculate_feedback guess code = (Py.len code, 0) ↔ guess = code.
Proof.
  intros Hlen. rewrite full_feedback_iff_prefix. split.
  - intros Hp. symmetry. by apply prefix_length_eq; [|lia].
  - by intros ->.
Qed.

(** X1. The feedback is [(len(code), 0)] exactly when [code] is the
    beginning of [guess]; for two codes of the same length, exactly when
    they are equal. *)
Theorem X1_full_feedback_iff_prefix guess code :
  (calculate_feedback guess code = (Py.len code, 0) ↔ code `prefix_of` guess)
  ∧ (length guess = length code →
     calculate_feedback guess code = (Py.len code, 0) ↔ guess = code).
Proof.
  split; [apply full_feedback_iff_prefix|apply full_feedback_iff_eq].
Qed.

Lemma sum_fmap_zero_inv {B} (f : B → Z) (l : list B) :
  (∀ x, x ∈ l → 0 ≤ f x) → Py.sum (f <$> l) = 0 → ∀ x, x ∈ l → f x = 0.
Proof.
  induction l as [|y l IH]; intros Hnn Hsum x Hx;
    [by apply not_elem_of_nil in Hx|].
  rewrite sum_fmap_cons in Hsum.
  assert (0 ≤ f y) by (apply Hnn; left).
  assert (0 ≤ Py.sum (f <$> l))
    by (apply sum_fmap_nonneg; intros z Hz; apply Hnn; by right).
  apply elem_of_cons in Hx as [->|Hx]; [lia|].
  apply IH; [|lia|done]. intros z Hz. apply Hnn. by right.
Qed.

(** X2. The feedback is [(0, 0)] exactly when no symbol of the guess
    occurs in the code. *)
Theorem X2_no_common_symbol guess code :
  calculate_feedback guess code = (0, 0) ↔ ∀ s, s ∈ guess → s ∉ code.
Proof.
  unfold calculate_feedback.
  pose proof (correct_position_nonneg guess code) as Hnn.
  pose proof (correct_position_le_common guess code) as Hle.
  split.
  - intros [= Hcp Hcc] s Hs Hs'.
    assert (Hzero : common_colors guess code = 0) by lia.
    unfold common_colors in Hzero.
    assert (Hmin : Z.min (Py.count s guess) (Py.count s code) = 0).
    { apply (sum_fmap_zero_inv
               (λ color, Z.min (Py.count color guess) (Py.count color code))
               (elements (Py.set guess))); [|done|by apply elem_of_elements_set].
      intros x _. pose proof (count_nonneg x guess).
      pose proof (count_nonneg x code). lia. }
    apply count_pos in Hs, Hs'. lia.
  - intros Hdisj.
    assert (Hzero : common_colors guess code = 0).
    { apply sum_fmap_zero. intros s Hs.
      apply (proj1 (elem_of_elements_set s guess)) in Hs.
      rewrite (count_zero s code) by (by apply Hdisj).
      pose proof (count_nonneg s guess). lia. }
    f_equal; lia.
Qed.

(** X3. Whatever the two lengths, nothing is raised and the feedback
    satisfies [0 <= exact], [0 <= colorOnly] and
    [exact + colorOnly <= min(len(guess), len(code))]. *)
Theorem X3_feedback_bounds_any_length guess code :
  0 ≤ (calculate_feedback guess code).1
  ∧ 0 ≤ (calculate_feedback guess code).2
  ∧ (calculate_feedback guess code).1 + (calculate_feedback guess code).2
    ≤ Z.min (Py.len guess) (Py.len code).
Proof.
  simpl.
  pose proof (correct_position_nonneg guess code).
  pose proof (correct_position_le_common guess code).
  pose proof (common_colors_le_len guess code).
  pose proof (common_colors_le_len_r guess code).
  lia.
Qed.

Lemma count_perm s a a' : a ≡ₚ a' → Py.count s a = Py.count s a'.
Proof.
  induction 1 as [|x l k _ IH|x y l|l k m _ IH1 _ IH2]; simpl;
    [done|by rewrite IH|lia|by rewrite IH1].
Qed.

(** X4. The total [exact + colorOnly] only depends on which symbols the
    two codes hold and how often, not on where: it is kept when the guess
    or the code is rearranged. *)
Theorem X4_total_invariant_under_rearrangement guess guess' code code' :
  guess ≡ₚ guess' → code ≡ₚ code' →
  (calculate_feedback guess code).1 + (calculate_feedback guess code).2
  = (calculate_feedback guess' code').1 + (calculate_feedback guess' code').2.
Proof.
  intros Hg Hc. simpl.
  assert (Hcc : common_colors guess code = common_colors guess' code').
  { unfold common_colors, Py.set.
    rewrite (list_to_set_perm_L guess guess' Hg).
    apply sum_fmap_ext. intros s _.
    by rewrite (count_perm s _ _ Hg), (count_perm s _ _ Hc). }
  lia.
Qed.

End feedback_more.

Lemma X1_full_feedback_iff_prefix_witness :
  calculate_feedback Sample.secret Sample.secret = (Py.len Sample.secret, 0)
  ↔ Sample.secret = Sample.secret.
Proof.
  apply (proj2 (X1_full_feedback_iff_prefix Sample.secret Sample.secret)).
  reflexivity.
Defined.

Lemma X2_no_common_symbol_witness :
  calculate_feedback ["Pink"]%string Sample.secret = (0, 0).
Proof.
  apply (proj2 (X2_no_common_symbol ["Pink"]%string Sample.secret)).
  intros s ->%list_elem_of_singleton.
  apply (bool_decide_unpack _). vm_compute. exact I.
Defined.

Lemma X4_total_invariant_under_rearrangement_witness :
  (calculate_feedback Sample.opening Sample.secret).1
  + (calculate_feedback Sample.opening Sample.secret).2
  = (calculate_feedback (reverse Sample.opening) (reverse Sample.secret)).1
    + (calculate_feedback (reverse Sample.opening) (reverse Sample.secret)).2.
Proof.
  apply X4_total_invariant_under_rearrangement;
    symmetry; apply reverse_Permutation.
Defined.

(** ** The code spaces of the constructor *)

Section code_spaces_more.
Context {A : Type}.
Implicit Types (pool rest l : list A) (x : A).

Lemma length_bind_const {B C} (f : B → list C) (bs : list B) (k : nat) :
  (∀ b, b ∈ bs → length (f b) = k) → length (bs ≫= f) = (length bs * k)%nat.
Proof.
  induction bs as [|y bs IH]; intros Hf; [done|].
  rewrite bind_cons, length_app, IH, (Hf y); [simpl; lia|left|].
  intros z Hz. apply Hf. by right.
Qed.

Lemma NoDup_bind_singleton {B C} (f : B → C) (bs : list B) :
  (∀ b1 b2, f b1 = f b2 → b1 = b2) → NoDup bs → NoDup (bs ≫= λ b, [f b]).
Proof.
  intros Hinj Hl. apply NoDup_bind; [|intros; apply NoDup_singleton|done].
  intros x1 x2 y _ _ ->%list_elem_of_singleton ?%list_elem_of_singleton.
  by apply Hinj.
Qed.

Lemma length_product_nat pool n :
  length (Py.product_nat pool n) = (length pool ^ n)%nat.
Proof.
  induction n as [|n IH]; [done|]. simpl Py.product_nat.
  rewrite (length_bind_const _ _ (length pool ^ n)); [simpl; lia|].
  intros x _. rewrite (length_bind_const _ _ 1); [lia|done].
Qed.

Lemma NoDup_product_nat pool n : NoDup pool → NoDup (Py.product_nat pool n).
Proof.
  intros Hpool. induction n as [|n IH]; [apply NoDup_singleton|].
  simpl. apply NoDup_bind; [| |done].
  - intros x1 x2 l _ _ (r1 & Hl1 & _)%list_elem_of_bind
      (r2 & Hl2 & _)%list_elem_of_bind.
    apply list_elem_of_singleton in Hl1, Hl2. congruence.
  - intros x _. apply NoDup_bind_singleton; [|done]. congruence.
Qed.

Lemma picks_fst pool : (Py.picks pool).*1 = pool.
Proof.
  induction pool as [|x pool IH]; [done|]. simpl. f_equal.
  rewrite <-list_fmap_compose. rewrite <-IH at 2. by apply list_fmap_ext.
Qed.

Lemma NoDup_picks pool : NoDup pool → NoDup (Py.picks pool).
Proof. intros Hpool. apply (NoDup_fmap_1 fst). by rewrite picks_fst. Qed.

Lemma picks_functional pool x rest1 rest2 :
  NoDup pool → (x, rest1) ∈ Py.picks pool → (x, rest2) ∈ Py.picks pool →
  rest1 = rest2.
Proof.
  intros Hpool.
  revert rest1 rest2. induction pool as [|z pool IH]; intros rest1 rest2;
    [by intros ?%not_elem_of_nil|].
  apply NoDup_cons in Hpool as [Hz Hpool]. simpl.
  assert (Htail : ∀ rest, (z, rest) ∉ (λ p, (p.1, z :: p.2)) <$> Py.picks pool).
  { intros rest Hin. apply list_elem_of_fmap in Hin as ([y r] & Heq & Hin).
    simpl in Heq. injection Heq as <- _.
    by apply elem_of_picks in Hin as [? _]. }
  intros H1 H2. apply elem_of_cons in H1, H2.
  destruct H1 as [H1|H1], H2 as [H2|H2].
  - congruence.
  - injection H1 as -> ->. by apply Htail in H2.
  - injection H2 as -> ->. by apply Htail in H1.
  - apply list_elem_of_fmap in H1 as ([y1 r1] & Heq1 & H1).
    apply list_elem_of_fmap in H2 as ([y2 r2] & Heq2 & H2).
    simpl in *. injection Heq1 as -> ->. injection Heq2 as <- ->.
    f_equal. by eapply IH.
Qed.

Lemma picks_complete pool x :
  x ∈ pool →
  ∃ rest, (x, rest) ∈ Py.picks pool ∧ ∀ y, y ∈ pool → y ≠ x → y ∈ rest.
Proof.
  induction pool as [|z pool IH]; [by intros ?%not_elem_of_nil|].
  intros [->|Hin]%elem_of_cons.
  - exists pool. split; [left|]. by intros y [->|?]%elem_of_cons.
  - destruct (IH Hin) as (rest & Hrest & Hall). exists (z :: rest). split.
    + simpl. right. apply list_elem_of_fmap. by exists (x, rest).
    + intros y [->|Hy]%elem_of_cons Hne; [left|right; by apply Hall].
Qed.

Lemma NoDup_permutations_nat pool r :
  NoDup pool → NoDup (Py.permutations_nat pool r).
Proof.
  revert pool. induction r as [|r IH]; intros pool Hpool;
    [apply NoDup_singleton|].
  simpl. apply NoDup_bind; [| |by apply NoDup_picks].
  - intros [x1 r1] [x2 r2] l Hp1 Hp2 (l1 & Hl1 & _)%list_elem_of_bind
      (l2 & Hl2 & _)%list_elem_of_bind.
    apply list_elem_of_singleton in Hl1, Hl2. simpl in *.
    assert (x1 = x2) as -> by congruence.
    f_equal. by eapply picks_functional.
  - intros [x rest] Hp. simpl.
    apply NoDup_bind_singleton; [congruence|].
    apply IH. by apply elem_of_picks in Hp as (_ & _ & _ & [_ ?]).
Qed.

Lemma permutations_nat_complete pool l :
  NoDup l → (∀ x, x ∈ l → x ∈ pool) →
  l ∈ Py.permutations_nat pool (length l).
Proof.
  revert pool. induction l as [|x l IH]; intros pool Hl Hin; [by left|].
  apply NoDup_cons in Hl as [Hx Hl]. simpl.
  destruct (picks_complete pool x) as (rest & Hrest & Hall);
    [apply Hin; left|].
  apply list_elem_of_bind. exists (x, rest). split; [|done]. simpl.
  apply list_elem_of_bind. exists l. split; [left|].
  apply IH; [done|]. intros y Hy. apply Hall; [apply Hin; by right|].
  by intros ->.
Qed.

End code_spaces_more.

(** ** What the constructor builds *)

Lemma permutations_nat_nonempty {A} (pool : list A) (r : nat) :
  NoDup pool → (r ≤ length pool)%nat → Py.permutations_nat pool r ≠ [].
Proof.
  intros Hpool Hr.
  assert (Hin : take r pool ∈ Py.permutations_nat pool (length (take r pool))).
  { apply permutations_nat_complete.
    - eapply sublist_NoDup; [done|apply sublist_take].
    - intros x Hx. by eapply subseteq_take. }
  rewrite length_take_le in Hin by done. by eapply elem_of_not_nil.
Qed.

(** With duplicates allowed and length 12 the sample platform has no
    memory for the [6 ^ 12] codes. *)
Example init_on_out_of_memory :
  MastermindGame_init_on Sample.machine true 12 = Py.Raise Py.MemoryError.
Proof.
  unfold MastermindGame_init_on, Py.product_on, Py.as_ssize_t.
  rewrite decide_True by (by vm_compute). cbn [Py.bind].
  rewrite decide_False by lia.
  rewrite decide_False by (vm_compute; by intros [_ ?]).
  replace (Py.mem_new Sample.machine 12) with true by (by vm_compute).
  unfold Py.list_of, Py.len.
  rewrite length_product_nat, Nat2Z.inj_pow.
  replace (Py.allocates Sample.machine
             (Z.of_nat (length COLORS) ^ Z.of_nat (Z.to_nat 12)))
    with false by (by vm_compute).
  reflexivity.
Qed.

(** X5. On any platform the constructor builds games only for
    [0 <= code_length <= 6], and then at least one; it does so whenever
    the code space can be computed for such a length. A length that does
    not fit a [Py_ssize_t] raises [OverflowError], and a negative one that
    fits raises [ValueError]. *)
Theorem X5_constructor_outcomes (m : Py.machine) (dups : bool) (n : Z) :
  (∀ games, MastermindGame_init_on m dups n = Py.Ok games →
            0 ≤ n ≤ 6 ∧ games ≠ [])
  ∧ (∀ codes, 0 ≤ n ≤ 6 → code_space_on m dups n = Py.Ok codes →
              ∃ games, MastermindGame_init_on m dups n = Py.Ok games)
  ∧ (¬ (- Py.ssize_t_max m - 1 ≤ n ≤ Py.ssize_t_max m) →
     MastermindGame_init_on m dups n = Py.Raise Py.OverflowError)
  ∧ (- Py.ssize_t_max m - 1 ≤ n < 0 →
     MastermindGame_init_on m dups n = Py.Raise Py.ValueError).
Proof.
  split; [|split; [|split]].
  - intros games Hinit.
    destruct (init_on_built _ _ _ _ Hinit) as [Hn Hideal].
    split; [done|]. rewrite init_cases, decide_True in Hideal by done.
    injection Hideal as <-. intros Hnil%fmap_nil_inv. revert Hnil.
    apply permutations_nat_nonempty; [apply COLORS_NoDup|].
    change (length COLORS) with 6%nat. lia.
  - intros codes Hn Hcodes. eexists. by apply init_on_ok.
  - apply init_on_unconvertible.
  - apply init_on_negative.
Qed.

Lemma X5_constructor_outcomes_witness :
  (∃ games, MastermindGame_init_on Sample.machine true 4 = Py.Ok games)
  ∧ MastermindGame_init_on Sample.machine true (2 ^ 63)
    = Py.Raise Py.OverflowError
  ∧ MastermindGame_init_on Sample.machine false (-1)
    = Py.Raise Py.ValueError.
Proof.
  destruct (X5_constructor_outcomes Sample.machine true 4)
    as (_ & Hok & _).
  destruct (X5_constructor_outcomes Sample.machine true (2 ^ 63))
    as (_ & _ & Hover & _).
  destruct (X5_constructor_outcomes Sample.machine false (-1))
    as (_ & _ & _ & Hneg).
  split; [|split].
  - apply (Hok (Py.product_nat COLORS 4)); [lia|].
    unfold code_space_on, Py.product_on, Py.as_ssize_t, Py.list_of.
    by vm_compute.
  - apply Hover. vm_compute. intros [_ Hle]. by apply Hle.
  - apply Hneg. vm_compute. split; [by intros ?|done].
Defined.

Lemma universe_of_built_game (dups : bool) (n : Z) games game :
  MastermindGame_init dups n = Py.Ok games → game ∈ games →
  NoDup (all_codes game)
  ∧ (∀ code, code ∈ all_codes game
             ↔ Py.len code = n ∧ (∀ s, s ∈ code → s ∈ COLORS)
               ∧ (dups = false → NoDup code))
  ∧ (dups = true → Py.len (all_codes game) = 6 ^ n).
Proof.
  intros Hinit Hgame.
  assert (Hn : 0 ≤ n ≤ 6).
  { rewrite init_cases in Hinit. by case_decide. }
  destruct (init_game _ _ _ _ Hinit Hgame) as (secret & _ & ->).
  cbn [all_codes fresh_game]. unfold Py.len. destruct dups.
  - split; [apply NoDup_product_nat, COLORS_NoDup|]. split.
    + intros code. rewrite elem_of_product_nat. split.
      * intros [Hlen Hsym]. split; [lia|]. by split.
      * intros (Hlen & Hsym & _). split; [lia|done].
    + intros _. rewrite length_product_nat.
      change (length COLORS) with 6%nat.
      rewrite Nat2Z.inj_pow, Z2Nat.id by lia. done.
  - split; [apply NoDup_permutations_nat, COLORS_NoDup|]. split; [|done].
    intros code. split.
    + intros (Hlen & Hsym & Hnd)%elem_of_permutations_nat.
      split; [lia|]. split; [done|]. intros _. apply Hnd, COLORS_NoDup.
    + intros (Hlen & Hsym & Hnd).
      replace (Z.to_nat n) with (length code) by lia.
      apply permutations_nat_complete; auto.
Qed.

(** X6. In a game the constructor builds, the universe [all_codes] holds
    each legal code once: the codes of [code_length] symbols of [COLORS],
    without a repeated symbol when duplicates are disallowed; with
    duplicates allowed there are [6 ^ code_length] of them. *)
Theorem X6_universe_of_built_game (dups : bool) (n : Z) games game :
  MastermindGame_init dups n = Py.Ok games → game ∈ games →
  NoDup (all_codes game)
  ∧ (∀ code, code ∈ all_codes game
             ↔ Py.len code = n ∧ (∀ s, s ∈ code → s ∈ COLORS)
               ∧ (dups = false → NoDup code))
  ∧ (dups = true → Py.len (all_codes game) = 6 ^ n).
Proof. apply universe_of_built_game. Qed.

Lemma sample_games_built :
  MastermindGame_init true 4
  = Py.Ok (fresh_game true 4 (Py.product_nat COLORS 4)
             <$> Py.permutations_nat COLORS 4)
  ∧ Sample.game ∈ fresh_game true 4 (Py.product_nat COLORS 4)
                    <$> Py.permutations_nat COLORS 4.
Proof.
  split; [by rewrite init_cases|].
  apply list_elem_of_fmap. exists Sample.secret. split; [reflexivity|].
  apply (bool_decide_unpack _). vm_compute. exact I.
Defined.

Lemma X6_universe_of_built_game_witness :
  NoDup (all_codes Sample.game)
  ∧ (∀ code, code ∈ all_codes Sample.game
             ↔ Py.len code = 4 ∧ (∀ s, s ∈ code → s ∈ COLORS)
               ∧ (true = false → NoDup code))
  ∧ (true = true → Py.len (all_codes Sample.game) = 6 ^ 4).
Proof.
  exact (X6_universe_of_built_game true 4 _ Sample.game
           (proj1 sample_games_built) (proj2 sample_games_built)).
Defined.

Lemma fresh_game_state (dups : bool) (n : Z) games game :
  MastermindGame_init dups n = Py.Ok games → game ∈ games →
  guesses game = [] ∧ feedbacks game = []
  ∧ possible_codes game = all_codes game
  ∧ code_length game = n ∧ allow_duplicates game = dups
  ∧ Py.len (secret_code game) = n
  ∧ NoDup (secret_code game)
  ∧ secret_code game ∈ all_codes game.
Proof.
  intros Hinit Hgame.
  assert (Hn : 0 ≤ n ≤ 6).
  { rewrite init_cases in Hinit. by case_decide. }
  pose proof (init_secret_NoDup _ _ _ _ Hinit Hgame) as Hnd.
  pose proof (init_secret_possible _ _ _ _ Hinit Hgame) as Hin.
  destruct (init_game _ _ _ _ Hinit Hgame) as (secret & Hs & ->).
  cbn [guesses feedbacks possible_codes all_codes code_length
       allow_duplicates secret_code fresh_game] in *.
  apply elem_of_permutations_nat in Hs as (Hlen & _ & _).
  unfold Py.len. repeat split; try done. lia.
Qed.

(** X7. A game the constructor builds starts with an empty history, all
    of the universe as candidates, and a secret of [code_length] distinct
    symbols that is one of the codes of the universe. *)
Theorem X7_fresh_game_state (dups : bool) (n : Z) games game :
  MastermindGame_init dups n = Py.Ok games → game ∈ games →
  guesses game = [] ∧ feedbacks game = []
  ∧ possible_codes game = all_codes game
  ∧ code_length game = n ∧ allow_duplicates game = dups
  ∧ Py.len (secret_code game) = n
  ∧ NoDup (secret_code game)
  ∧ secret_code game ∈ all_codes game.
Proof. apply fresh_game_state. Qed.

Lemma X7_fresh_game_state_witness :
  guesses Sample.game = [] ∧ feedbacks Sample.game = []
  ∧ possible_codes Sample.game = all_codes Sample.game
  ∧ code_length Sample.game = 4 ∧ allow_duplicates Sample.game = true
  ∧ Py.len (secret_code Sample.game) = 4
  ∧ NoDup (secret_code Sample.game)
  ∧ secret_code Sample.game ∈ all_codes Sample.game.
Proof.
  exact (X7_fresh_game_state true 4 _ Sample.game
           (proj1 sample_games_built) (proj2 sample_games_built)).
Defined.

(** ** Turns, one after the other *)

Example initial_guess_value : initial_guess = Sample.opening.
Proof. reflexivity. Qed.

Lemma play_turns_nil self : play_turns self [] = self.
Proof. reflexivity. Qed.

Lemma play_turns_cons self guess turns :
  play_turns self (guess :: turns)
  = play_turns (play_turn self guess).2 turns.
Proof. reflexivity. Qed.

Lemma play_turns_frame self turns :
  secret_code (play_turns self turns) = secret_code self
  ∧ all_codes (play_turns self turns) = all_codes self
  ∧ code_length (play_turns self turns) = code_length self
  ∧ allow_duplicates (play_turns self turns) = allow_duplicates self.
Proof.
  induction turns as [|guess turns IH] using rev_ind; [done|].
  rewrite play_turns_snoc.
  destruct (play_turn_frame (play_turns self turns) guess)
    as (-> & -> & -> & ->). done.
Qed.

Lemma play_turns_sublist self turns :
  possible_codes (play_turns self turns) `sublist_of` possible_codes self.
Proof.
  induction turns as [|guess turns IH] using rev_ind; [done|].
  rewrite play_turns_snoc. etrans; [|exact IH].
  destruct (play_turn_cases (play_turns self turns) guess)
    as [(_ & _ & ->)|(_ & _ & ->)]; [done|apply sublist_filter].
Qed.

(** X8. The candidates never grow and never change order: after any
    turns, [possible_codes] is a sublist of what it was, hence no
    longer. *)
Theorem X8_candidates_only_shrink self turns :
  possible_codes (play_turns self turns) `sublist_of` possible_codes self
  ∧ Py.len (possible_codes (play_turns self turns))
    ≤ Py.len (possible_codes self).
Proof.
  pose proof (play_turns_sublist self turns) as Hsub.
  split; [done|]. apply sublist_length in Hsub. unfold Py.len. lia.
Qed.

(** X9. The history records the turns in order: after any turns,
    [guesses] has grown by the guesses played and [feedbacks] by the
    score of each of them against the secret, so the two lists keep the
    same length. *)
Theorem X9_history_records_turns self turns :
  guesses (play_turns self turns) = guesses self ++ turns
  ∧ feedbacks (play_turns self turns)
    = feedbacks self
      ++ ((λ guess, calculate_feedback guess (secret_code self)) <$> turns)
  ∧ (length (guesses self) = length (feedbacks self) →
     length (guesses (play_turns self turns))
     = length (feedbacks (play_turns self turns))).
Proof.
  assert (Hhist : guesses (play_turns self turns) = guesses self ++ turns
    ∧ feedbacks (play_turns self turns)
      = feedbacks self
        ++ ((λ guess, calculate_feedback guess (secret_code self)) <$> turns)).
  { induction turns as [|guess turns [IHg IHf]] using rev_ind.
    - by rewrite !app_nil_r.
    - rewrite play_turns_snoc.
      destruct (play_turn_history (play_turns self turns) guess) as [-> ->].
      destruct (play_turns_frame self turns) as (-> & _).
      rewrite IHg, IHf, fmap_app, !app_assoc. done. }
  destruct Hhist as [-> ->]. split; [done|]. split; [done|].
  intros Hlen. rewrite !length_app, length_fmap. lia.
Qed.

Lemma X9_history_records_turns_witness :
  length (guesses (play_turns Sample.game [Sample.opening; Sample.secret]))
  = length (feedbacks (play_turns Sample.game [Sample.opening; Sample.secret])).
Proof.
  apply (proj2 (proj2 (X9_history_records_turns Sample.game
                         [Sample.opening; Sample.secret]))).
  reflexivity.
Defined.

(** X10. After any turns, the candidates are exactly the earlier
    candidates that score like the secret against every guess played on
    a non-solving turn. *)
Theorem X10_candidates_agree_with_secret self turns code :
  code ∈ possible_codes (play_turns self turns)
  ↔ code ∈ possible_codes self
    ∧ ∀ guess, guess ∈ turns →
               calculate_feedback guess (secret_code self)
               ≠ (code_length self, 0) →
               calculate_feedback guess code
               = calculate_feedback guess (secret_code self).
Proof.
  induction turns as [|guess turns IH] using rev_ind.
  - split; [|by intros [? _]]. intros Hin. split; [done|].
    by intros guess ?%not_elem_of_nil.
  - rewrite play_turns_snoc.
    destruct (play_turns_frame self turns) as (Hs & _ & Hl & _).
    destruct (play_turn_cases (play_turns self turns) guess)
      as [(Hfb & _ & ->)|(Hfb & _ & ->)]; rewrite Hs, Hl in Hfb.
    + rewrite IH. split; intros [Hin Hall]; (split; [done|]).
      * intros g [Hg| ->%list_elem_of_singleton]%elem_of_app; [auto|done].
      * intros g Hg. apply Hall, elem_of_app. by left.
    + unfold filter_codes. rewrite list_elem_of_filter, IH, Hs. split.
      * intros (Hcode & Hin & Hall). split; [done|].
        intros g [Hg| ->%list_elem_of_singleton]%elem_of_app; auto.
      * intros [Hin Hall]. split; [|split; [done|]].
        -- apply Hall; [|done]. apply elem_of_app. right. left.
        -- intros g Hg. apply Hall, elem_of_app. by left.
Qed.

(** ** The invariant of a game *)

Lemma well_formed_built (dups : bool) (n : Z) games game :
  MastermindGame_init dups n = Py.Ok games → game ∈ games →
  well_formed game.
Proof.
  intros Hinit Hgame.
  destruct (universe_of_built_game _ _ _ _ Hinit Hgame) as (Hnd & Hall & _).
  destruct (fresh_game_state _ _ _ _ Hinit Hgame)
    as (_ & _ & Hposs & Hlen & _ & _ & _ & Hs).
  unfold well_formed. rewrite Hposs, Hlen. repeat split; try done.
  intros code Hcode. by apply Hall in Hcode as [? _].
Qed.

Lemma well_formed_play_turn self guess :
  well_formed self → well_formed (play_turn self guess).2.
Proof.
  intros (Hs & Hnd & Hsub & Hlen). unfold well_formed.
  destruct (play_turn_frame self guess) as (-> & -> & -> & _).
  split; [by apply play_turn_retains|].
  destruct (play_turn_cases self guess) as [(_ & _ & ->)|(_ & _ & ->)];
    [done|].
  split; [by apply NoDup_filter|]. split; [|done].
  intros code Hcode%filter_codes_subset. by apply Hsub.
Qed.

Lemma well_formed_play_turns self turns :
  well_formed self → well_formed (play_turns self turns).
Proof.
  intros Hwf. induction turns as [|guess turns IH] using rev_ind; [done|].
  rewrite play_turns_snoc. by apply well_formed_play_turn.
Qed.

Lemma well_formed_secret_len self :
  well_formed self → Py.len (secret_code self) = code_length self.
Proof. intros (Hs & _ & Hsub & Hlen). by apply Hlen, Hsub. Qed.

(** X11. In a game built by the constructor, after any turns, [play_turn]
    returns [True] exactly for the guesses that begin with the secret;
    for a guess of [code_length] symbols, exactly for the secret. *)
Theorem X11_solved_iff_secret (dups : bool) (n : Z) games game turns guess :
  MastermindGame_init dups n = Py.Ok games → game ∈ games →
  ((play_turn (play_turns game turns) guess).1 = true
   ↔ secret_code game `prefix_of` guess)
  ∧ (Py.len guess = n →
     (play_turn (play_turns game turns) guess).1 = true
     ↔ guess = secret_code game).
Proof.
  intros Hinit Hgame.
  pose proof (well_formed_built _ _ _ _ Hinit Hgame) as Hwf.
  pose proof (well_formed_secret_len _ Hwf) as Hlen.
  destruct (fresh_game_state _ _ _ _ Hinit Hgame)
    as (_ & _ & _ & Hn & _).
  destruct (play_turns_frame game turns) as (Hs & _ & Hl & _).
  assert (Hsolved : (play_turn (play_turns game turns) guess).1 = true
    ↔ calculate_feedback guess (secret_code game)
      = (Py.len (secret_code game), 0)).
  { rewrite Hlen, <-Hs, <-Hl.
    destruct (play_turn_cases (play_turns game turns) guess)
      as [(Hfb & -> & _)|(Hfb & -> & _)]; by split. }
  rewrite Hsolved. split; [apply full_feedback_iff_prefix|].
  intros Hg. apply full_feedback_iff_eq. unfold Py.len in *. lia.
Qed.

Lemma X11_solved_iff_secret_witness :
  ((play_turn (play_turns Sample.game [Sample.opening]) Sample.secret).1 = true
   ↔ secret_code Sample.game `prefix_of` Sample.secret)
  ∧ ((play_turn (play_turns Sample.game [Sample.opening]) Sample.secret).1
     = true ↔ Sample.secret = secret_code Sample.game).
Proof.
  destruct (X11_solved_iff_secret true 4 _ Sample.game [Sample.opening]
              Sample.secret (proj1 sample_games_built)
              (proj2 sample_games_built)) as [H1 H2].
  split; [exact H1|]. apply H2. reflexivity.
Defined.

(** ** The dictionary of the selector *)

Lemma sum_values_count (counts : gmap (Z * Z) Z) (feedback : Z * Z) :
  Py.sum ((map_to_list (<[feedback := default 0 (counts !! feedback) + 1]>
                          counts)).*2)
  = Py.sum ((map_to_list counts).*2) + 1.
Proof.
  destruct (counts !! feedback) as [n|] eqn:Hlook; simpl.
  - rewrite <-insert_delete_eq.
    rewrite (sum_perm _
      (((feedback, n + 1) :: map_to_list (delete feedback counts)).*2))
      by (apply fmap_Permutation, map_to_list_insert, lookup_delete_eq).
    rewrite (sum_perm ((map_to_list counts).*2)
      (((feedback, n) :: map_to_list (delete feedback counts)).*2))
      by (symmetry; by apply fmap_Permutation, map_to_list_delete).
    rewrite !fmap_cons, !sum_cons. simpl. lia.
  - rewrite (sum_perm _ (((feedback, 0 + 1) :: map_to_list counts).*2))
      by (by apply fmap_Permutation, map_to_list_insert).
    rewrite fmap_cons, sum_cons. simpl. lia.
Qed.

Lemma feedback_counts_snoc guess codes code :
  feedback_counts guess (codes ++ [code])
  = <[calculate_feedback guess code :=
        default 0 (feedback_counts guess codes
                     !! calculate_feedback guess code) + 1]>
      (feedback_counts guess codes).
Proof. unfold feedback_counts. by rewrite foldl_app. Qed.

(** X12. The dictionary [feedback_counts] built for a guess partitions
    the candidates: its keys are the feedbacks that occur, each with the
    number of candidates giving it, and its values add up to the number
    of candidates. *)
Theorem X12_feedback_counts_partition guess codes :
  (∀ feedback,
      is_Some (feedback_counts guess codes !! feedback)
      ↔ ∃ code, code ∈ codes ∧ calculate_feedback guess code = feedback)
  ∧ (∀ feedback n,
        feedback_counts guess codes !! feedback = Some n →
        n = part_size guess codes feedback ∧ 0 < n)
  ∧ Py.sum ((map_to_list (feedback_counts guess codes)).*2) = Py.len codes.
Proof.
  split; [|split].
  - intros feedback. rewrite <-part_size_pos, feedback_counts_lookup.
    pose proof (part_size_nonneg guess codes feedback).
    case_decide.
    + split; [by intros [? ?]|lia].
    + split; [lia|intros _; by eexists].
  - intros feedback n. rewrite feedback_counts_lookup.
    pose proof (part_size_nonneg guess codes feedback).
    case_decide; [done|]. intros [= <-]. lia.
  - induction codes as [|code codes IH] using rev_ind; [done|].
    rewrite feedback_counts_snoc, sum_values_count, IH.
    unfold Py.len. rewrite length_app. simpl. lia.
Qed.

Lemma X12_feedback_counts_partition_witness :
  0 < 1 ∧ 1 = part_size Sample.opening [Sample.secret] (1, 1).
Proof.
  destruct (proj1 (proj2 (X12_feedback_counts_partition
                            Sample.opening [Sample.secret])) (1, 1) 1) as [? ?];
    [reflexivity|]. by split.
Defined.

(** ** The selector and the order of the candidates *)

Lemma part_size_perm guess codes codes' feedback :
  codes ≡ₚ codes' →
  part_size guess codes feedback = part_size guess codes' feedback.
Proof.
  intros Hperm. unfold part_size, filter_codes, Py.len.
  by rewrite Hperm.
Qed.

Lemma foldr_max_perm (l k : list Z) :
  l ≡ₚ k → foldr Z.max 0 l = foldr Z.max 0 k.
Proof.
  induction 1 as [|x l k _ IH|x y l|l k m _ IH1 _ IH2]; simpl.
  - done.
  - by rewrite IH.
  - by rewrite !Z.max_assoc, (Z.max_comm x y).
  - by rewrite IH1.
Qed.

Lemma worst_perm guess codes codes' :
  codes ≡ₚ codes' → worst guess codes = worst guess codes'.
Proof.
  intros Hperm. unfold worst.
  rewrite (list_fmap_ext
    (λ code, part_size guess codes (calculate_feedback guess code))
    (λ code, part_size guess codes' (calculate_feedback guess code)) codes)
    by (intros; by apply part_size_perm).
  by apply foldr_max_perm, fmap_Permutation.
Qed.

Lemma max_eliminations_perm guess codes codes' :
  codes ≡ₚ codes' →
  max_eliminations guess codes = max_eliminations guess codes'.
Proof.
  intros Hperm. destruct codes as [|code codes].
  - by apply Permutation_nil_l in Hperm as ->.
  - rewrite !max_eliminations_worst.
    + by rewrite (worst_perm _ _ _ Hperm).
    + intros ->. by apply Permutation_nil_r in Hperm.
    + done.
Qed.

Lemma minimax_loop_perm universe codes codes' best bound :
  codes ≡ₚ codes' →
  minimax_loop universe codes best bound
  = minimax_loop universe codes' best bound.
Proof.
  intros Hperm. revert best bound.
  induction universe as [|guess universe IH]; intros best bound; [done|].
  simpl. rewrite (max_eliminations_perm _ _ _ Hperm).
  destruct (max_eliminations guess codes') as [m|e]; [simpl|done].
  by rewrite !IH.
Qed.

(** X13. The selector does not depend on the order of the candidates:
    two games with the same universe and the same candidates in different
    orders get the same answer from [next_guess], error included. *)
Theorem X13_next_guess_ignores_candidate_order self self' :
  all_codes self = all_codes self' →
  possible_codes self ≡ₚ possible_codes self' →
  next_guess self = next_guess self'.
Proof.
  intros Hall Hperm. unfold next_guess, _minimax_guess. rewrite Hall.
  destruct (possible_codes self) as [|c [|c' codes]] eqn:Hcodes.
  - apply Permutation_nil_l in Hperm as <-. done.
  - apply Permutation_singleton_l in Hperm as <-. done.
  - destruct (possible_codes self') as [|d [|d' codes']] eqn:Hcodes'.
    + by apply Permutation_nil_r in Hperm.
    + by apply Permutation_singleton_r in Hperm.
    + by apply minimax_loop_perm.
Qed.

Lemma X13_next_guess_ignores_candidate_order_witness :
  next_guess
    {| allow_duplicates := true; code_length := 4;
       all_codes := all_codes Sample.game; secret_code := Sample.secret;
       possible_codes := [Sample.secret; Sample.opening];
       guesses := []; feedbacks := [] |}
  = next_guess
      {| allow_duplicates := true; code_length := 4;
         all_codes := all_codes Sample.game; secret_code := Sample.secret;
         possible_codes := [Sample.opening; Sample.secret];
         guesses := []; feedbacks := [] |}.
Proof.
  apply X13_next_guess_ignores_candidate_order; [reflexivity|].
  apply Permutation_swap.
Defined.

(** ** The solving loop *)

Lemma well_formed_universe_nonempty self : well_formed self → all_codes self ≠ [].
Proof. intros (Hs & _ & Hsub & _). eapply elem_of_not_nil, Hsub, Hs. Qed.

Lemma well_formed_candidates_nonempty self :
  well_formed self → possible_codes self ≠ [].
Proof. intros (Hs & _). by eapply elem_of_not_nil. Qed.

(** On a game that satisfies the invariant, [next_guess] answers with a
    code of the universe: the secret when it is the only candidate, the
    minimax choice otherwise. *)
Lemma next_guess_well_formed self :
  well_formed self →
  ∃ g, next_guess self = Py.Ok (Some g)
       ∧ g ∈ all_codes self
       ∧ (possible_codes self = [secret_code self] ∧ g = secret_code self
          ∨ (2 ≤ length (possible_codes self))%nat
            ∧ is_first_minimax (all_codes self) (possible_codes self) g).
Proof.
  intros Hwf. pose proof Hwf as (Hs & Hnd & Hsub & Hlen).
  destruct (possible_codes self) as [|c [|c' codes]] eqn:Hcodes.
  - by apply not_elem_of_nil in Hs.
  - apply list_elem_of_singleton in Hs as Heq. exists c.
    split; [by apply next_guess_single|]. split; [apply Hsub; left|].
    left. by rewrite Heq.
  - destruct (minimax_guess_spec self) as (g & Hg & Hmin).
    + by rewrite Hcodes.
    + by apply well_formed_universe_nonempty.
    + exists g. rewrite next_guess_search by (rewrite Hcodes; simpl; lia).
      split; [done|]. rewrite Hcodes in Hmin. split.
      * destruct Hmin as (i & Hi & _). by eapply list_elem_of_lookup_2.
      * right. split; [simpl; lia|done].
Qed.

(** Guessing the secret splits off a part of one code: with two
    candidates or more, every part is smaller than the whole. *)
Lemma worst_secret_lt self :
  well_formed self → (2 ≤ length (possible_codes self))%nat →
  worst (secret_code self) (possible_codes self)
  < Py.len (possible_codes self).
Proof.
  intros Hwf Htwo. pose proof Hwf as (Hs & Hnd & Hsub & Hlen).
  destruct (worst_attained (secret_code self) (possible_codes self))
    as (code & Hcode & <-); [by apply well_formed_candidates_nonempty|].
  assert (Hother : ∃ other, other ∈ possible_codes self
                            ∧ other ≠ secret_code self).
  { destruct (possible_codes self) as [|c [|c' codes]];
      [simpl in Htwo; lia..|].
    apply NoDup_cons in Hnd as [Hc _].
    destruct (decide (c = secret_code self)) as [->|Hne].
    - exists c'. split; [right; left|]. intros ->. apply Hc. left.
    - exists c. split; [left|done]. }
  destruct Hother as (other & Hother & Hne).
  assert (Hdiff : calculate_feedback (secret_code self) other
                  ≠ calculate_feedback (secret_code self) (secret_code self)).
  { rewrite calculate_feedback_self. intros Hfb. apply Hne.
    assert (Hl : Py.len other = Py.len (secret_code self)).
    { rewrite (Hlen other), (Hlen (secret_code self)); auto. }
    rewrite <-Hl in Hfb. symmetry.
    apply full_feedback_iff_eq in Hfb; [done|]. unfold Py.len in Hl. lia. }
  unfold part_size, filter_codes, Py.len. apply inj_lt.
  destruct (decide (calculate_feedback (secret_code self) code
                    = calculate_feedback (secret_code self) (secret_code self)))
    as [Heq|Hneq].
  - apply (length_filter_lt _ _ other); [done|]. by rewrite Heq.
  - apply (length_filter_lt _ _ (secret_code self)); [done|]. by intros ?.
Qed.

(** A non-solving turn played with the guess of [next_guess] leaves
    fewer candidates. *)
Lemma minimax_turn_shrinks self g :
  well_formed self → (2 ≤ length (possible_codes self))%nat →
  is_first_minimax (all_codes self) (possible_codes self) g →
  (play_turn self g).1 = false →
  (length (possible_codes (play_turn self g).2)
   < length (possible_codes self))%nat.
Proof.
  intros Hwf Htwo (i & _ & Hmin & _) Hunsolved.
  pose proof Hwf as (Hs & _ & Hsub & _).
  destruct (play_turn_cases self g) as [(_ & Htrue & _)|(_ & _ & ->)];
    [congruence|].
  pose proof (part_size_le_worst g (possible_codes self)
                (calculate_feedback g (secret_code self))) as Hpart.
  pose proof (Hmin (secret_code self) (Hsub _ Hs)) as Hle.
  pose proof (worst_secret_lt self Hwf Htwo) as Hlt.
  unfold part_size, Py.len in *. lia.
Qed.

(** Once a guess has been made, the loop ends within as many turns as
    there are candidates, and the last guess is the secret. *)
Lemma run_game_loop_ends (k : nat) :
  ∀ self,
    well_formed self → guesses self ≠ [] →
    (length (possible_codes self) ≤ k)%nat →
    ∃ final,
      (∀ fuel, (k ≤ fuel)%nat → run_game_loop fuel self = Py.Ok (Some final))
      ∧ last (guesses final) = Some (secret_code self)
      ∧ last (feedbacks final) = Some (code_length self, 0)
      ∧ (length (guesses final) ≤ length (guesses self) + k)%nat.
Proof.
  induction k as [|k IH]; intros self Hwf Hplayed Hk.
  { pose proof (well_formed_candidates_nonempty self Hwf).
    destruct (possible_codes self); [done|simpl in Hk; lia]. }
  pose proof (well_formed_secret_len self Hwf) as Hslen.
  destruct (next_guess_well_formed self Hwf) as (g & Hnext & Hg & Hcase).
  assert (Hglen : Py.len g = code_length self)
    by (by apply Hwf).
  assert (Hloop : ∀ fuel,
    run_game_loop (S fuel) self
    = if (play_turn self g).1 then Py.Ok (Some (play_turn self g).2)
      else run_game_loop fuel (play_turn self g).2).
  { intros fuel. simpl. destruct (guesses self) as [|g0 gs]; [done|].
    rewrite Hnext. simpl. by destruct (play_turn self g). }
  destruct (play_turn_history self g) as [Hgs Hfs].
  destruct (play_turn_frame self g) as (Hsec & _ & Hcl & _).
  destruct (play_turn_cases self g) as [(Hfb & Htrue & _)|(Hfb & Hfalse & _)].
  - exists (play_turn self g).2. split; [|split; [|split]].
    + intros [|fuel] Hfuel; [lia|]. by rewrite Hloop, Htrue.
    + rewrite Hgs, last_snoc. f_equal.
      rewrite <-Hslen in Hfb.
      apply full_feedback_iff_eq in Hfb; [done|]. unfold Py.len in *. lia.
    + by rewrite Hfs, last_snoc, Hfb.
    + rewrite Hgs, length_app. simpl. lia.
  - destruct Hcase as [[Hone ->]|[Htwo Hmin]].
    { exfalso. apply Hfb. by rewrite calculate_feedback_self, Hslen. }
    pose proof (minimax_turn_shrinks self g Hwf Htwo Hmin Hfalse) as Hlt.
    destruct (IH (play_turn self g).2) as (final & Hrun & Hlast & Hfbl & Hlen).
    + by apply well_formed_play_turn.
    + rewrite Hgs. by destruct (guesses self).
    + lia.
    + exists final. split; [|split; [|split]].
      * intros [|fuel] Hfuel; [lia|]. rewrite Hloop, Hfalse.
        apply Hrun. lia.
      * by rewrite Hlast, Hsec.
      * by rewrite Hfbl, Hcl.
      * rewrite Hgs, length_app in Hlen. simpl in Hlen. lia.
Qed.

(** X14. In a game built by the constructor, after any turns,
    [next_guess] raises nothing and returns a code of the universe, of
    [code_length] symbols; when a single candidate is left, that code is
    the secret. *)
Theorem X14_next_guess_of_built_game (dups : bool) (n : Z) games game turns :
  MastermindGame_init dups n = Py.Ok games → game ∈ games →
  ∃ g, next_guess (play_turns game turns) = Py.Ok (Some g)
       ∧ g ∈ all_codes game
       ∧ Py.len g = n
       ∧ (length (possible_codes (play_turns game turns)) = 1%nat →
          g = secret_code game).
Proof.
  intros Hinit Hgame.
  pose proof (well_formed_built _ _ _ _ Hinit Hgame) as Hwf0.
  pose proof (well_formed_play_turns game turns Hwf0) as Hwf.
  destruct (fresh_game_state _ _ _ _ Hinit Hgame) as (_ & _ & _ & Hn & _).
  destruct (play_turns_frame game turns) as (Hs & Ha & Hl & _).
  destruct (next_guess_well_formed _ Hwf) as (g & Hnext & Hg & Hcase).
  exists g. split; [done|]. rewrite Ha in Hg. split; [done|]. split.
  - rewrite <-Hn. by apply Hwf0.
  - intros Hone. destruct Hcase as [[_ ->]|[Htwo _]]; [done|lia].
Qed.

Lemma X14_next_guess_of_built_game_witness :
  ∃ g, next_guess (play_turns Sample.game [Sample.opening]) = Py.Ok (Some g)
       ∧ g ∈ all_codes Sample.game
       ∧ Py.len g = 4
       ∧ (length (possible_codes (play_turns Sample.game [Sample.opening]))
          = 1%nat → g = secret_code Sample.game).
Proof.
  exact (X14_next_guess_of_built_game true 4 _ Sample.game [Sample.opening]
           (proj1 sample_games_built) (proj2 sample_games_built)).
Defined.

(** X15. The loop of [run_game] on a game built with [CODE_LENGTH]
    symbols always ends: within one turn more than there are codes in the
    universe it stops, nothing is raised, the last guess recorded is the
    secret and the last feedback is [(CODE_LENGTH, 0)]. *)
Theorem X15_run_game_finds_the_secret (dups : bool) games game :
  MastermindGame_init dups CODE_LENGTH = Py.Ok games → game ∈ games →
  ∃ final,
    (∀ fuel, (S (length (all_codes game)) ≤ fuel)%nat →
             run_game_loop fuel game = Py.Ok (Some final))
    ∧ last (guesses final) = Some (secret_code game)
    ∧ last (feedbacks final) = Some (CODE_LENGTH, 0)
    ∧ (length (guesses final) ≤ S (length (all_codes game)))%nat.
Proof.
  intros Hinit Hgame.
  pose proof (well_formed_built _ _ _ _ Hinit Hgame) as Hwf.
  pose proof (well_formed_secret_len _ Hwf) as Hslen.
  destruct (fresh_game_state _ _ _ _ Hinit Hgame)
    as (Hgs0 & _ & Hposs & Hn & _).
  assert (Hloop : ∀ fuel,
    run_game_loop (S fuel) game
    = if (play_turn game initial_guess).1
      then Py.Ok (Some (play_turn game initial_guess).2)
      else run_game_loop fuel (play_turn game initial_guess).2).
  { intros fuel. simpl. rewrite Hgs0. simpl.
    by destruct (play_turn game initial_guess). }
  destruct (play_turn_history game initial_guess) as [Hgs Hfs].
  destruct (play_turn_frame game initial_guess) as (Hsec & _ & Hcl & _).
  destruct (play_turn_cases game initial_guess)
    as [(Hfb & Htrue & _)|(Hfb & Hfalse & _)].
  - exists (play_turn game initial_guess).2. split; [|split; [|split]].
    + intros [|fuel] Hfuel; [lia|]. by rewrite Hloop, Htrue.
    + rewrite Hgs, last_snoc. f_equal. rewrite <-Hslen in Hfb.
      apply full_feedback_iff_eq in Hfb; [done|].
      rewrite Hn in Hslen. unfold Py.len, CODE_LENGTH in Hslen.
      change (length initial_guess) with 4%nat. lia.
    + by rewrite Hfs, last_snoc, Hfb, Hn.
    + rewrite Hgs, Hgs0. simpl. lia.
  - destruct (run_game_loop_ends (length (all_codes game))
                (play_turn game initial_guess).2)
      as (final & Hrun & Hlast & Hfbl & Hlen).
    + by apply well_formed_play_turn.
    + rewrite Hgs. by destruct (guesses game).
    + rewrite <-Hposs.
      pose proof (play_turns_sublist game [initial_guess]) as Hsub.
      by apply sublist_length in Hsub.
    + exists final. split; [|split; [|split]].
      * intros [|fuel] Hfuel; [lia|]. rewrite Hloop, Hfalse.
        apply Hrun. lia.
      * by rewrite Hlast, Hsec.
      * by rewrite Hfbl, Hcl, Hn.
      * rewrite Hgs, Hgs0 in Hlen. simpl in Hlen. lia.
Qed.

Lemma X15_run_game_finds_the_secret_witness :
  ∃ final,
    (∀ fuel, (S (length (all_codes Sample.game)) ≤ fuel)%nat →
             run_game_loop fuel Sample.game = Py.Ok (Some final))
    ∧ last (guesses final) = Some (secret_code Sample.game)
    ∧ last (feedbacks final) = Some (CODE_LENGTH, 0)
    ∧ (length (guesses final) ≤ S (length (all_codes Sample.game)))%nat.
Proof.
  exact (X15_run_game_finds_the_secret true _ Sample.game
           (proj1 sample_games_built) (proj2 sample_games_built)).
Defined.

(** X16. Every guess of [next_guess] makes progress: in a game built by
    the constructor, after any turns, playing the guess [next_guess]
    returns either solves the game, the guess being the secret, or
    leaves strictly fewer candidates. *)
Theorem X16_next_guess_makes_progress (dups : bool) (n : Z) games game turns :
  MastermindGame_init dups n = Py.Ok games → game ∈ games →
  ∃ g, next_guess (play_turns game turns) = Py.Ok (Some g)
       ∧ ((play_turn (play_turns game turns) g).1 = true
          ∧ g = secret_code game
          ∨ (play_turn (play_turns game turns) g).1 = false
            ∧ (length (possible_codes (play_turn (play_turns game turns) g).2)
               < length (possible_codes (play_turns game turns)))%nat).
Proof.
  intros Hinit Hgame.
  pose proof (well_formed_built _ _ _ _ Hinit Hgame) as Hwf0.
  pose proof (well_formed_play_turns game turns Hwf0) as Hwf.
  pose proof (well_formed_secret_len _ Hwf) as Hslen.
  destruct (play_turns_frame game turns) as (Hs & _ & _ & _).
  destruct (next_guess_well_formed _ Hwf) as (g & Hnext & Hg & Hcase).
  assert (Hglen : Py.len g = code_length (play_turns game turns))
    by (by apply Hwf).
  exists g. split; [done|].
  destruct (play_turn_cases (play_turns game turns) g)
    as [(Hfb & Htrue & _)|(Hfb & Hfalse & _)].
  - left. split; [done|]. rewrite <-Hs. rewrite <-Hslen in Hfb.
    apply full_feedback_iff_eq in Hfb; [done|]. unfold Py.len in *. lia.
  - right. split; [done|]. destruct Hcase as [[_ ->]|[Htwo Hmin]].
    + exfalso. apply Hfb. by rewrite calculate_feedback_self, Hslen.
    + by apply minimax_turn_shrinks.
Qed.

Lemma X16_next_guess_makes_progress_witness :
  ∃ g, next_guess (play_turns Sample.game [Sample.opening]) = Py.Ok (Some g)
       ∧ ((play_turn (play_turns Sample.game [Sample.opening]) g).1 = true
          ∧ g = secret_code Sample.game
          ∨ (play_turn (play_turns Sample.game [Sample.opening]) g).1 = false
            ∧ (length (possible_codes
                         (play_turn (play_turns Sample.game [Sample.opening]) g).2)
               < length (possible_codes
                           (play_turns Sample.game [Sample.opening])))%nat).
Proof.
  exact (X16_next_guess_makes_progress true 4 _ Sample.game [Sample.opening]
           (proj1 sample_games_built) (proj2 sample_games_built)).
Defined.

(** X17. In a game built by the constructor the candidates never run
    out: after any turns [possible_codes] is not empty, since the secret
    is still in it. *)
Theorem X17_candidates_never_empty (dups : bool) (n : Z) games game turns :
  MastermindGame_init dups n = Py.Ok games → game ∈ games →
  possible_codes (play_turns game turns) ≠ []
  ∧ secret_code game ∈ possible_codes (play_turns game turns).
Proof.
  intros Hinit Hgame.
  assert (Hs : secret_code game ∈ possible_codes (play_turns game turns)).
  { apply play_turns_retains. by eapply init_secret_possible. }
  split; [by eapply elem_of_not_nil|done].
Qed.

Lemma X17_candidates_never_empty_witness :
  possible_codes (play_turns Sample.game [Sample.opening]) ≠ []
  ∧ secret_code Sample.game
      ∈ possible_codes (play_turns Sample.game [Sample.opening]).
Proof.
  exact (X17_candidates_never_empty true 4 _ Sample.game [Sample.opening]
           (proj1 sample_games_built) (proj2 sample_games_built)).
Defined.
